(** * Booking admission and status transitions of the listings app

    A shallow embedding of [listings/serializers.py]:
    [BookingCreateSerializer] (field validators, [validate], [create]) and
    [BookingUpdateSerializer] ([Meta.fields], [validate_status]), together
    with the two database tables they query.  The copy under
    [alx_travel_app/listings/serializers.py] has the same text for both
    classes, so one embedding covers both.

    Conventions of the embedding.
    - A [date] is its proleptic ordinal (a [Z]); [(a - b).days] is [a - b].
    - [date.today()] is the parameter [today].
    - A UUID or another primary key is an [N].
    - [price_per_night] is a decimal of fixed scale; it is represented by the
      integer count of its smallest unit, so [price * days] is exact integer
      multiplication.
    - Serializer input is taken after the fields' own parsing: a guest count
      is already an integer, a date already a date.  The validators that
      the fields take from the column declarations (ranges, lengths,
      choices) are not in the sources; where a statement depends on them
      they are a parameter ([BookingCreateFields], [Field]). *)

From stdpp Require Import gmap strings list fin_maps pretty.
From Stdlib Require Import ZArith Lia.

Local Open Scope Z_scope.

(** ** Exceptions *)

(** The argument of [serializers.ValidationError(...)] as the source writes
    it: a plain message, or a dict from field name to message. *)
Inductive detail :=
| Message (msg : string)
| FieldErrors (errs : list (string * string)).

Inductive exn :=
| ValidationError (d : detail)
| DoesNotExist.

Definition result (A : Type) : Type := (exn + A)%type.

Definition ret {A} (a : A) : result A := inr a.
Definition raise {A} (e : exn) : result A := inl e.
Definition bind {A B} (r : result A) (k : A → result B) : result B :=
  match r with
  | inl e => inl e
  | inr a => k a
  end.

Notation "x ←! r ; k" := (bind r (λ x, k))
  (at level 20, r at level 100, k at level 200, right associativity,
   format "x  ←!  r ;  '/' k").

(** ** Models (the columns the serializers read and write) *)

Module Listing.
Record t := {
    status : string;
    is_available : bool;
    max_guests : Z;
    minimum_stay : Z;
    maximum_stay : option Z;       (* nullable column *)
    price_per_night : Z;
  }.
End Listing.

Module Booking.
Record t := {
    listing : N;                   (* foreign key *)
    user : N;                      (* foreign key *)
    check_in_date : Z;
    check_out_date : Z;
    guests : Z;
    total_price : Z;
    status : string;
    special_requests : option string;
  }.
End Booking.

Record DB := {
  listings : gmap N Listing.t;
  bookings : gmap N Booking.t;
}.

(** Modelled from the spec: the column default of [Booking.status], declared
    in the models module; a booking is created in [pending] status. *)
Definition Booking_status_default : string := "pending".

(** ** Query sets *)

(** [Listing.objects.get(id=pk)] *)
Definition Listing_objects_get (db : DB) (pk : N) : result Listing.t :=
  match listings db !! pk with
  | Some l => ret l
  | None => raise DoesNotExist
  end.

(** [Listing.objects.get(id=pk, status='published', is_available=True)] *)
Definition Listing_objects_get_published_available (db : DB) (pk : N)
  : result Listing.t :=
  match listings db !! pk with
  | Some l =>
      if bool_decide (Listing.status l = "published") && Listing.is_available l
      then ret l
      else raise DoesNotExist
  | None => raise DoesNotExist
  end.

(** [queryset.exists()] *)
Definition qs_exists {A} (q : gmap N A) : bool :=
  match map_to_list q with
  | [] => false
  | _ :: _ => true
  end.

(** Truth value of a nullable integer column in a Python condition:
    [None] and [0] are false. *)
Definition truthy (v : option Z) : bool :=
  match v with
  | None => false
  | Some n => negb (n =? 0)
  end.

(** ** Framework glue (rest_framework.serializers) *)

(** One turn of the field loop of [Serializer.to_internal_value]: the
    [validate_<field>] method either returns the value or raises
    [ValidationError(msg)], which is stored as [errors[field_name]]. *)
Definition collect {A} (field_name : string) (r : string + A)
    (errors : list (string * string)) : list (string * string) :=
  match r with
  | inl msg => errors ++ [(field_name, msg)]
  | inr _ => errors
  end.

(** [as_serializer_error]: a dict detail is kept, a plain message goes under
    the non-field key. *)
Definition as_serializer_error (d : detail) : list (string * string) :=
  match d with
  | Message msg => [("non_field_errors", msg)]
  | FieldErrors errs => errs
  end.

(** The [try: value = self.validate(value) except ValidationError] of
    [Serializer.run_validation]. *)
Definition reraise_as_serializer_error {A} (r : result A) : result A :=
  match r with
  | inl (ValidationError d) =>
      raise (ValidationError (FieldErrors (as_serializer_error d)))
  | other => other
  end.

(** ** BookingCreateSerializer *)

Module BookingCreateSerializer.

(** [Meta.fields]: the keys of the request body and of [attrs]. *)
Record data := {
  listing_id : N;
  check_in_date : Z;
  check_out_date : Z;
  guests : Z;
  special_requests : option string;   (* optional key *)
}.

Definition validate_listing_id (db : DB) (value : N) : string + N :=
  match Listing_objects_get_published_available db value with
  | inr _listing => inr value
  | inl _ =>
      inl "Invalid listing ID or listing is not available for booking."
  end.

Definition validate_check_in_date (today : Z) (value : Z) : string + Z :=
  if value <=? today
  then inl "Check-in date must be in the future."
  else inr value.

Definition validate_check_out_date (today : Z) (value : Z) : string + Z :=
  if value <=? today
  then inl "Check-out date must be in the future."
  else inr value.

Definition validate_guests (value : Z) : string + Z :=
  if value <=? 0
  then inl "Number of guests must be greater than 0."
  else inr value.

(** The stay-length test of [validate]:
    [listing.maximum_stay and duration > listing.maximum_stay]. *)
Definition over_maximum_stay (listing : Listing.t) (duration : Z) : bool :=
  truthy (Listing.maximum_stay listing)
  && match Listing.maximum_stay listing with
     | Some m => duration >? m
     | None => false
     end.

(** The query of [validate]:
    [Booking.objects.filter(listing=listing,
       status__in=['confirmed', 'pending'],
       check_in_date__lt=attrs['check_out_date'],
       check_out_date__gt=attrs['check_in_date'])] *)
Definition overlapping_bookings (db : DB) (attrs : data)
  : gmap N Booking.t :=
  filter (λ kb : N * Booking.t,
            Booking.listing kb.2 = listing_id attrs
            ∧ Booking.status kb.2 ∈ ["confirmed"; "pending"]
            ∧ Booking.check_in_date kb.2 < check_out_date attrs
            ∧ Booking.check_out_date kb.2 > check_in_date attrs)
         (bookings db).

Definition validate (db : DB) (attrs : data) : result data :=
  if check_out_date attrs <=? check_in_date attrs then
    raise (ValidationError (FieldErrors
      [("check_out_date", "Check-out date must be after check-in date.")]))
  else
    listing ←! Listing_objects_get db (listing_id attrs);
    if guests attrs >? Listing.max_guests listing then
      raise (ValidationError (FieldErrors
        [("guests",
          "Number of guests cannot exceed "
            +:+ pretty (Listing.max_guests listing) +:+ ".")]))
    else
      let duration := check_out_date attrs - check_in_date attrs in
      if duration <? Listing.minimum_stay listing then
        raise (ValidationError (FieldErrors
          [("check_out_date",
            "Minimum stay is "
              +:+ pretty (Listing.minimum_stay listing) +:+ " nights.")]))
      else if over_maximum_stay listing duration then
        (* reached only with [maximum_stay] set; [default] never applies *)
        raise (ValidationError (FieldErrors
          [("check_out_date",
            "Maximum stay is "
              +:+ pretty (default 0 (Listing.maximum_stay listing))
              +:+ " nights.")]))
      else if qs_exists (overlapping_bookings db attrs) then
        raise (ValidationError
          (Message "The selected dates are not available for booking."))
      else ret attrs.

(** [Serializer.to_internal_value]: every writable field in the order of
    [Meta.fields]; all failures are gathered before anything is raised.
    [special_requests] has no validator method.  This is the loop for
    values that the fields themselves accept as they are; the loop with the
    fields' own validators is [BookingCreateFields.to_internal_value]
    below, of which this one is the case [BookingCreateFields.accept_all]. *)
Definition to_internal_value (db : DB) (today : Z) (d : data)
  : list (string * string) + data :=
  let errors := [] in
  let errors :=
    collect "listing_id" (validate_listing_id db (listing_id d)) errors in
  let errors :=
    collect "check_in_date"
            (validate_check_in_date today (check_in_date d)) errors in
  let errors :=
    collect "check_out_date"
            (validate_check_out_date today (check_out_date d)) errors in
  let errors := collect "guests" (validate_guests (guests d)) errors in
  match errors with
  | [] => inr d
  | _ :: _ => inl errors
  end.

(** [Serializer.run_validation], behind [is_valid()]. *)
Definition run_validation (db : DB) (today : Z) (d : data) : result data :=
  match to_internal_value db today d with
  | inl errors => raise (ValidationError (FieldErrors errors))
  | inr attrs => reraise_as_serializer_error (validate db attrs)
  end.

Definition create (db : DB) (request_user : N) (validated_data : data)
  : result Booking.t :=
  listing ←! Listing_objects_get db (listing_id validated_data);
  let duration :=
    check_out_date validated_data - check_in_date validated_data in
  let total_price := Listing.price_per_night listing * duration in
  ret {| Booking.listing := listing_id validated_data;
         Booking.user := request_user;
         Booking.check_in_date := check_in_date validated_data;
         Booking.check_out_date := check_out_date validated_data;
         Booking.guests := guests validated_data;
         Booking.total_price := total_price;
         Booking.status := Booking_status_default;
         Booking.special_requests := special_requests validated_data |}.

(** [is_valid()] followed by [save()]: the new row, or the exception. *)
Definition submit (db : DB) (today : Z) (request_user : N) (d : data)
  : result Booking.t :=
  validated_data ←! run_validation db today d;
  create db request_user validated_data.

End BookingCreateSerializer.

(** [Booking.objects.create(...)] with [pk] the generated primary key. *)
Definition Booking_objects_create (pk : N) (b : Booking.t) (db : DB) : DB :=
  {| listings := listings db; bookings := <[pk := b]> (bookings db) |}.

(** ** BookingUpdateSerializer *)

Module BookingUpdateSerializer.

(** [Meta.fields = ['status', 'special_requests']]: the only keys read
    from the request body; either may be absent. *)
Record data := {
  status : option string;
  special_requests : option string;
}.

Definition allowed_transitions : gmap string (list string) :=
  <["pending" := ["confirmed"; "cancelled"]]>
  (<["confirmed" := ["completed"; "cancelled"]]>
  (<["cancelled" := []]>
  (<["completed" := []]> ∅))).

Definition validate_status (instance : Booking.t) (value : string)
  : string + string :=
  let current_status := Booking.status instance in
  if bool_decide
       (value ∉ default [] (allowed_transitions !! current_status))
  then inl ("Cannot change status from " +:+ current_status
              +:+ " to " +:+ value +:+ ".")
  else inr value.

(** [Serializer.to_internal_value]: a key that is absent from the body is
    skipped, its validator method is not called. *)
Definition to_internal_value (instance : Booking.t) (d : data)
  : list (string * string) + data :=
  let errors := [] in
  let errors :=
    match status d with
    | Some value => collect "status" (validate_status instance value) errors
    | None => errors
    end in
  match errors with
  | [] => inr d
  | _ :: _ => inl errors
  end.

(** The class does not override [validate]. *)
Definition run_validation (instance : Booking.t) (d : data) : result data :=
  match to_internal_value instance d with
  | inl errors => raise (ValidationError (FieldErrors errors))
  | inr attrs => ret attrs
  end.

(** [ModelSerializer.update]: [setattr(instance, attr, value)] for each
    key of [validated_data]. *)
Definition update (instance : Booking.t) (validated_data : data)
  : Booking.t :=
  {| Booking.listing := Booking.listing instance;
     Booking.user := Booking.user instance;
     Booking.check_in_date := Booking.check_in_date instance;
     Booking.check_out_date := Booking.check_out_date instance;
     Booking.guests := Booking.guests instance;
     Booking.total_price := Booking.total_price instance;
     Booking.status :=
       match status validated_data with
       | Some value => value
       | None => Booking.status instance
       end;
     Booking.special_requests :=
       match special_requests validated_data with
       | Some value => Some value
       | None => Booking.special_requests instance
       end |}.

(** [is_valid()] followed by [save()]. *)
Definition submit (instance : Booking.t) (d : data) : result Booking.t :=
  validated_data ←! run_validation instance d;
  ret (update instance validated_data).

End BookingUpdateSerializer.

(** [instance.save()] of the row with primary key [pk]. *)
Definition Booking_save (pk : N) (b : Booking.t) (db : DB) : DB :=
  {| listings := listings db; bookings := <[pk := b]> (bookings db) |}.


(** ** The two operations as transitions of the database *)

(** A booking request that is admitted inserts one row under a fresh primary
    key; a status or note update that validates rewrites one existing row.
    A rejected request leaves the database as it is. *)
Inductive step : DB → DB → Prop :=
| step_create (db : DB) (today : Z) (request_user : N)
    (d : BookingCreateSerializer.data) (pk : N) (b : Booking.t) :
    BookingCreateSerializer.submit db today request_user d = inr b →
    bookings db !! pk = None →
    step db (Booking_objects_create pk b db)
| step_update (db : DB) (pk : N) (instance : Booking.t)
    (d : BookingUpdateSerializer.data) (b' : Booking.t) :
    bookings db !! pk = Some instance →
    BookingUpdateSerializer.submit instance d = inr b' →
    step db (Booking_save pk b' db).

Inductive reachable : DB → Prop :=
| reachable_init (ls : gmap N Listing.t) :
    reachable {| listings := ls; bookings := ∅ |}
| reachable_step (db db' : DB) :
    reachable db → step db db' → reachable db'.

(** ** Vocabulary of the specification *)

(** The four pairs the lifecycle permits. *)
Definition permitted (current requested : string) : Prop :=
  (current = "pending" ∧ requested = "confirmed")
  ∨ (current = "pending" ∧ requested = "cancelled")
  ∨ (current = "confirmed" ∧ requested = "completed")
  ∨ (current = "confirmed" ∧ requested = "cancelled").

#[global] Instance permitted_dec (current requested : string) :
  Decision (permitted current requested).
Proof. unfold permitted. apply _. Defined.

(** The message of a rejected transition; it spells out both states. *)
Definition IllegalTransition (current requested : string) : string :=
  "Cannot change status from " +:+ current +:+ " to " +:+ requested +:+ ".".

(** A booking that blocks its dates. *)
Definition active (b : Booking.t) : Prop :=
  Booking.status b = "pending" ∨ Booking.status b = "confirmed".

(** Half-open overlap of the stay of [b] with the range
    from [check_in] to [check_out]. *)
Definition overlaps (b : Booking.t) (check_in check_out : Z) : Prop :=
  Booking.check_in_date b < check_out ∧ Booking.check_out_date b > check_in.

(** No two distinct active bookings of one listing overlap. *)
Definition no_double_booking (db : DB) : Prop :=
  ∀ (i j : N) (a b : Booking.t),
    i ≠ j →
    bookings db !! i = Some a →
    bookings db !! j = Some b →
    Booking.listing a = Booking.listing b →
    active a → active b →
    ¬ (Booking.check_in_date a < Booking.check_out_date b
       ∧ Booking.check_out_date a > Booking.check_in_date b).

Section CreateVocabulary.
Import BookingCreateSerializer.

Definition nights (d : data) : Z := check_out_date d - check_in_date d.

(** An existing booking that stands in the way of the request [d]. *)
Definition conflicting (d : data) (b : Booking.t) : Prop :=
  Booking.listing b = listing_id d
  ∧ active b
  ∧ overlaps b (check_in_date d) (check_out_date d).

Definition InvalidListing : string * string :=
  ("listing_id",
   "Invalid listing ID or listing is not available for booking.").
Definition InvalidDate_check_in : string * string :=
  ("check_in_date", "Check-in date must be in the future.").
Definition InvalidDate_check_out : string * string :=
  ("check_out_date", "Check-out date must be in the future.").
Definition InvalidGuests : string * string :=
  ("guests", "Number of guests must be greater than 0.").
Definition InvalidDateRange : string * string :=
  ("check_out_date", "Check-out date must be after check-in date.").
Definition CapacityExceeded (l : Listing.t) : string * string :=
  ("guests",
   "Number of guests cannot exceed " +:+ pretty (Listing.max_guests l) +:+ ".").
Definition StayTooShort (l : Listing.t) : string * string :=
  ("check_out_date",
   "Minimum stay is " +:+ pretty (Listing.minimum_stay l) +:+ " nights.").
Definition StayTooLong (l : Listing.t) : string * string :=
  ("check_out_date",
   "Maximum stay is " +:+ pretty (default 0 (Listing.maximum_stay l))
     +:+ " nights.").
Definition DateRangeUnavailable : string * string :=
  ("non_field_errors", "The selected dates are not available for booking.").

(** What the caller of [is_valid()] sees when exactly the error [e] is
    reported. *)
Definition rejected {A} (e : string * string) : result A :=
  inl (ValidationError (FieldErrors [e])).

(** The result is one of the two stay-length errors of listing [l]. *)
Definition StayDurationInvalid {A} (l : Listing.t) (r : result A) : Prop :=
  r = rejected (StayTooShort l) ∨ r = rejected (StayTooLong l).

(** [serializer.errors]: the entries reported to the caller. *)
Definition reported_errors {A} (r : result A) : list (string * string) :=
  match r with
  | inl (ValidationError d) => as_serializer_error d
  | _ => []
  end.

(** The listing exists, is published and is available. *)
Definition bookable (db : DB) (pk : N) : Prop :=
  match listings db !! pk with
  | Some l => Listing.status l = "published" ∧ Listing.is_available l = true
  | None => False
  end.

(** The listing has a maximum stay in force (set and not zero) and the
    request is longer. *)
Definition stay_too_long (l : Listing.t) (d : data) : Prop :=
  match Listing.maximum_stay l with
  | Some m => m ≠ 0 ∧ nights d > m
  | None => False
  end.


#[global] Instance bookable_dec (db : DB) (pk : N) : Decision (bookable db pk).
Proof. unfold bookable. destruct (listings db !! pk); apply _. Defined.

#[global] Instance stay_too_long_dec (l : Listing.t) (d : data) :
  Decision (stay_too_long l d).
Proof. unfold stay_too_long. destruct (Listing.maximum_stay l); apply _. Defined.

#[global] Instance conflicting_dec (d : data) (b : Booking.t) :
  Decision (conflicting d b).
Proof. unfold conflicting, active, overlaps. apply _. Defined.

(** The field-level phase, stated over propositions: each field check on
    its own, every failure reported under its field, in field order. *)
Definition field_level_errors (db : DB) (today : Z) (d : data)
  : list (string * string) :=
  (if decide (bookable db (listing_id d)) then [] else [InvalidListing])
  ++ (if decide (check_in_date d ≤ today) then [InvalidDate_check_in] else [])
  ++ (if decide (check_out_date d ≤ today) then [InvalidDate_check_out] else [])
  ++ (if decide (guests d ≤ 0) then [InvalidGuests] else []).

(** The cross-field phase, stated over propositions: the error of the
    earliest violated step, if any. *)
Definition first_cross_field_error (db : DB) (l : Listing.t) (d : data)
  : option (string * string) :=
  if decide (check_out_date d ≤ check_in_date d) then Some InvalidDateRange
  else if decide (guests d > Listing.max_guests l) then
    Some (CapacityExceeded l)
  else if decide (nights d < Listing.minimum_stay l) then Some (StayTooShort l)
  else if decide (stay_too_long l d) then Some (StayTooLong l)
  else if decide (map_Exists (λ _ b, conflicting d b) (bookings db)) then
    Some DateRangeUnavailable
  else None.

End CreateVocabulary.

(** ** Sample data *)

(** Ordinals of the dates used below. *)
Definition may_1 : Z := 739372.
Definition june_1 : Z := 739403.
Definition june_4 : Z := 739406.
Definition june_5 : Z := 739407.
Definition june_8 : Z := 739410.

Definition villa : Listing.t :=
  {| Listing.status := "published";
     Listing.is_available := true;
     Listing.max_guests := 4;
     Listing.minimum_stay := 2;
     Listing.maximum_stay := Some 14;
     Listing.price_per_night := 12000 |}.

(** A listing whose stored maximum stay is zero. *)
Definition cabin : Listing.t :=
  {| Listing.status := "published";
     Listing.is_available := true;
     Listing.max_guests := 2;
     Listing.minimum_stay := 1;
     Listing.maximum_stay := Some 0;
     Listing.price_per_night := 8000 |}.

Definition first_week : Booking.t :=
  {| Booking.listing := 1%N;
     Booking.user := 7%N;
     Booking.check_in_date := june_1;
     Booking.check_out_date := june_5;
     Booking.guests := 2;
     Booking.total_price := 48000;
     Booking.status := "confirmed";
     Booking.special_requests := None |}.

Definition sample_listings : gmap N Listing.t :=
  <[1%N := villa]> (<[2%N := cabin]> ∅).

Definition empty_db : DB :=
  {| listings := sample_listings; bookings := ∅ |}.

Definition sample_db : DB :=
  {| listings := sample_listings; bookings := <[10%N := first_week]> ∅ |}.

Definition request (listing : N) (check_in check_out guests : Z)
  : BookingCreateSerializer.data :=
  {| BookingCreateSerializer.listing_id := listing;
     BookingCreateSerializer.check_in_date := check_in;
     BookingCreateSerializer.check_out_date := check_out;
     BookingCreateSerializer.guests := guests;
     BookingCreateSerializer.special_requests := None |}.

(** The request that starts the day [first_week] ends, and one that starts
    a day earlier. *)
Definition back_to_back : BookingCreateSerializer.data :=
  request 1 june_5 june_8 2.
Definition one_day_early : BookingCreateSerializer.data :=
  request 1 june_4 june_8 2.


(** An unknown listing and a check-in that lies in the past. *)
Definition stale_request : BookingCreateSerializer.data :=
  request 9 (may_1 - 30) june_5 2.

(** The row that [back_to_back], sent by user 8, becomes. *)
Definition second_week : Booking.t :=
  {| Booking.listing := 1%N;
     Booking.user := 8%N;
     Booking.check_in_date := june_5;
     Booking.check_out_date := june_8;
     Booking.guests := 2;
     Booking.total_price := 36000;
     Booking.status := "pending";
     Booking.special_requests := None |}.

Definition confirm : BookingUpdateSerializer.data :=
  {| BookingUpdateSerializer.status := Some "confirmed";
     BookingUpdateSerializer.special_requests := None |}.

Definition late_arrival : BookingUpdateSerializer.data :=
  {| BookingUpdateSerializer.status := None;
     BookingUpdateSerializer.special_requests := Some "Late arrival" |}.

(** A later stay on the same listing, sent by user 9, and its row. *)
Definition following_request : BookingCreateSerializer.data :=
  request 1 june_8 (june_8 + 3) 3.

Definition third_week : Booking.t :=
  {| Booking.listing := 1%N;
     Booking.user := 9%N;
     Booking.check_in_date := june_8;
     Booking.check_out_date := june_8 + 3;
     Booking.guests := 3;
     Booking.total_price := 36000;
     Booking.status := "pending";
     Booking.special_requests := None |}.

(** The database after [back_to_back] was admitted under key 11, after that
    booking was confirmed, and after [following_request] was admitted under
    key 12. *)
Definition db_after_create : DB :=
  Booking_objects_create 11%N second_week empty_db.
Definition db_after_confirm : DB :=
  Booking_save 11%N (BookingUpdateSerializer.update second_week confirm)
    db_after_create.
Definition db_after_second : DB :=
  Booking_objects_create 12%N third_week db_after_confirm.

(** ** Listing serializers *)

(** The category and location tables, as far as the validators read them. *)
Module Category.
Record t := { is_active : bool }.
End Category.

Record Catalog := {
  categories : gmap Z Category.t;
  locations : gset Z;
}.

(** A listing row with its foreign keys; [columns] are the columns the
    booking checks read. *)
Module ListingRow.
Record t := {
  category : Z;
  location : Z;
  host : N;
  columns : Listing.t;
}.
End ListingRow.

(** [Category.objects.get(id=pk, is_active=True)] *)
Definition Category_objects_get_active (cat : Catalog) (pk : Z)
  : result Category.t :=
  match categories cat !! pk with
  | Some c => if Category.is_active c then ret c else raise DoesNotExist
  | None => raise DoesNotExist
  end.

(** [Category.objects.get(id=pk)] *)
Definition Category_objects_get (cat : Catalog) (pk : Z) : result Category.t :=
  match categories cat !! pk with
  | Some c => ret c
  | None => raise DoesNotExist
  end.

(** [Location.objects.get(id=pk)] *)
Definition Location_objects_get (cat : Catalog) (pk : Z) : result Z :=
  if bool_decide (pk ∈ locations cat) then ret pk else raise DoesNotExist.

(** The exceptions of above, and the [KeyError] of [dict.pop] on a key that
    is absent. *)
Inductive error :=
| Exn (e : exn)
| KeyError (key : string).

Module ListingCreateUpdateSerializer.

(** The keys of [Meta.fields] that the methods of the class or the booking
    checks read; each may be absent from the body, as in a partial update.
    [maximum_stay] is nullable, so it may also be present with the value
    null.  The remaining keys (title, description, currency and so on) pass
    through unread. *)
Record data := {
  status : option string;
  category_id : option Z;
  location_id : option Z;
  price_per_night : option Z;
  max_guests : option Z;
  is_available : option bool;
  minimum_stay : option Z;
  maximum_stay : option (option Z);
}.

Definition validate_category_id (cat : Catalog) (value : Z) : string + Z :=
  match Category_objects_get_active cat value with
  | inr _ => inr value
  | inl _ => inl "Invalid category ID or category is not active."
  end.

Definition validate_location_id (cat : Catalog) (value : Z) : string + Z :=
  match Location_objects_get cat value with
  | inr _ => inr value
  | inl _ => inl "Invalid location ID."
  end.

Definition validate_price_per_night (value : Z) : string + Z :=
  if value <=? 0
  then inl "Price per night must be greater than 0."
  else inr value.

Definition validate_max_guests (value : Z) : string + Z :=
  if value <=? 0
  then inl "Maximum guests must be greater than 0."
  else inr value.

(** [attrs.get('maximum_stay')]: [None] for an absent key and for null. *)
Definition get_maximum_stay (attrs : data) : option Z :=
  mjoin (maximum_stay attrs).

Definition validate (attrs : data) : result data :=
  if truthy (get_maximum_stay attrs) && truthy (minimum_stay attrs) then
    match get_maximum_stay attrs, minimum_stay attrs with
    | Some mx, Some mn =>
        if mx <? mn then
          raise (ValidationError (FieldErrors
            [("maximum_stay",
              "Maximum stay cannot be less than minimum stay.")]))
        else ret attrs
    | _, _ => ret attrs        (* both are set when both are true *)
    end
  else ret attrs.

(** The keyword arguments handed to [super().create]: the validated data
    without the two id keys, with the objects found and the host. *)
Record kwargs := {
  category : Z;
  location : Z;
  host : N;
  rest : data;
}.

Definition without_ids (validated_data : data) : data :=
  {| status := status validated_data;
     category_id := None;
     location_id := None;
     price_per_night := price_per_night validated_data;
     max_guests := max_guests validated_data;
     is_available := is_available validated_data;
     minimum_stay := minimum_stay validated_data;
     maximum_stay := maximum_stay validated_data |}.

Definition create (cat : Catalog) (request_user : N) (validated_data : data)
  : error + kwargs :=
  match category_id validated_data with
  | None => inl (KeyError "category_id")
  | Some category_id =>
      match location_id validated_data with
      | None => inl (KeyError "location_id")
      | Some location_id =>
          match Category_objects_get cat category_id with
          | inl e => inl (Exn e)
          | inr _ =>
              match Location_objects_get cat location_id with
              | inl e => inl (Exn e)
              | inr _ =>
                  inr {| category := category_id;
                         location := location_id;
                         host := request_user;
                         rest := without_ids validated_data |}
              end
          end
      end
  end.

(** [update]: the id keys, when present, are replaced by the objects found;
    [super().update] then sets every key of the validated data on the
    instance. *)
Definition update (cat : Catalog) (instance : ListingRow.t)
    (validated_data : data) : result ListingRow.t :=
  category ←!
    match category_id validated_data with
    | Some category_id =>
        _ ←! Category_objects_get cat category_id; ret category_id
    | None => ret (ListingRow.category instance)
    end;
  location ←!
    match location_id validated_data with
    | Some location_id =>
        _ ←! Location_objects_get cat location_id; ret location_id
    | None => ret (ListingRow.location instance)
    end;
  let old := ListingRow.columns instance in
  ret {| ListingRow.category := category;
         ListingRow.location := location;
         ListingRow.host := ListingRow.host instance;
         ListingRow.columns :=
           {| Listing.status :=
                default (Listing.status old) (status validated_data);
              Listing.is_available :=
                default (Listing.is_available old)
                        (is_available validated_data);
              Listing.max_guests :=
                default (Listing.max_guests old) (max_guests validated_data);
              Listing.minimum_stay :=
                default (Listing.minimum_stay old)
                        (minimum_stay validated_data);
              Listing.maximum_stay :=
                default (Listing.maximum_stay old)
                        (maximum_stay validated_data);
              Listing.price_per_night :=
                default (Listing.price_per_night old)
                        (price_per_night validated_data) |} |}.

(** One turn of the field loop for a key that may be absent: an absent key
    is skipped. *)
Definition collect_present {A} (field_name : string)
    (validator : A → string + A) (value : option A)
    (errors : list (string * string)) : list (string * string) :=
  match value with
  | Some v => collect field_name (validator v) errors
  | None => errors
  end.

(** [Serializer.to_internal_value] of a partial update, where an absent key
    is skipped, for values that the fields themselves accept as they are
    (within the range of their columns): the validator methods in the order
    of [Meta.fields]. *)
Definition to_internal_value (cat : Catalog) (d : data)
  : list (string * string) + data :=
  let errors := [] in
  let errors :=
    collect_present "category_id" (validate_category_id cat)
                    (category_id d) errors in
  let errors :=
    collect_present "location_id" (validate_location_id cat)
                    (location_id d) errors in
  let errors :=
    collect_present "price_per_night" validate_price_per_night
                    (price_per_night d) errors in
  let errors :=
    collect_present "max_guests" validate_max_guests (max_guests d) errors in
  match errors with
  | [] => inr d
  | _ :: _ => inl errors
  end.

Definition run_validation (cat : Catalog) (d : data) : result data :=
  match to_internal_value cat d with
  | inl errors => raise (ValidationError (FieldErrors errors))
  | inr attrs => reraise_as_serializer_error (validate attrs)
  end.

(** [is_valid()] followed by [save()] on an existing listing. *)
Definition submit (cat : Catalog) (instance : ListingRow.t) (d : data)
  : result ListingRow.t :=
  validated_data ←! run_validation cat d;
  update cat instance validated_data.

End ListingCreateUpdateSerializer.

(** [instance.save()] of the listing with primary key [pk]. *)
Definition Listing_save (pk : N) (row : ListingRow.t) (db : DB) : DB :=
  {| listings := <[pk := ListingRow.columns row]> (listings db);
     bookings := bookings db |}.

Module Review.
Record t := { rating : Z; is_verified : bool }.
End Review.

Module ListingSerializer.

(** The keys that [validate] reads; each may be absent from the body. *)
Record data := {
  minimum_stay : option Z;
  maximum_stay : option (option Z);
  max_guests : option Z;
  bedrooms : option Z;
}.

Definition validate (d : data) : result data :=
  let minimum_stay := default 1 (minimum_stay d) in
  let maximum_stay := mjoin (maximum_stay d) in
  if truthy maximum_stay
     && match maximum_stay with
        | Some mx => minimum_stay >? mx
        | None => false
        end
  then
    raise (ValidationError
      (Message "Minimum stay cannot be greater than maximum stay"))
  else
    let max_guests := default 1 (max_guests d) in
    let bedrooms := default 1 (bedrooms d) in
    if max_guests >? bedrooms * 4 then
      raise (ValidationError
        (Message "Maximum guests seems too high for the number of bedrooms"))
    else ret d.

(** [obj.reviews.filter(is_verified=True)] *)
Definition verified (reviews : list Review.t) : list Review.t :=
  filter (λ r, Review.is_verified r = true) reviews.

Definition get_review_count (reviews : list Review.t) : Z :=
  Z.of_nat (length (verified reviews)).

Section AverageRating.
(** [round(total / count, 1)] on floats is not modelled; it is the
    parameter [round1_div total count]. *)
Context {float : Type} (round1_div : Z → Z → float).

Definition get_average_rating (reviews : list Review.t) : option float :=
  let reviews := verified reviews in
  match reviews with
  | _ :: _ =>
      let total_rating := foldr Z.add 0 (Review.rating <$> reviews) in
      Some (round1_div total_rating (Z.of_nat (length reviews)))
  | [] => None
  end.

End AverageRating.

End ListingSerializer.

Module ListingDetailSerializer.

Definition get_review_count (reviews : list Review.t) : Z :=
  Z.of_nat (length reviews).

Section AverageRating.
Context {float : Type} (round1_div : Z → Z → float).

Definition get_average_rating (reviews : list Review.t) : option float :=
  match reviews with
  | _ :: _ =>
      Some (round1_div (foldr Z.add 0 (Review.rating <$> reviews))
                       (Z.of_nat (length reviews)))
  | [] => None
  end.

End AverageRating.

End ListingDetailSerializer.

(** Sample data of the listing serializers. *)
Definition sample_catalog : Catalog :=
  {| categories :=
       <[1 := {| Category.is_active := true |}]>
       (<[2 := {| Category.is_active := false |}]> ∅);
     locations := {[ 5 ]} |}.

Definition villa_row : ListingRow.t :=
  {| ListingRow.category := 1;
     ListingRow.location := 5;
     ListingRow.host := 3%N;
     ListingRow.columns := villa |}.

Definition no_change : ListingCreateUpdateSerializer.data :=
  {| ListingCreateUpdateSerializer.status := None;
     ListingCreateUpdateSerializer.category_id := None;
     ListingCreateUpdateSerializer.location_id := None;
     ListingCreateUpdateSerializer.price_per_night := None;
     ListingCreateUpdateSerializer.max_guests := None;
     ListingCreateUpdateSerializer.is_available := None;
     ListingCreateUpdateSerializer.minimum_stay := None;
     ListingCreateUpdateSerializer.maximum_stay := None |}.

(** A partial update that sets only the maximum stay, to one night. *)
Definition shorten_maximum : ListingCreateUpdateSerializer.data :=
  {| ListingCreateUpdateSerializer.status := None;
     ListingCreateUpdateSerializer.category_id := None;
     ListingCreateUpdateSerializer.location_id := None;
     ListingCreateUpdateSerializer.price_per_night := None;
     ListingCreateUpdateSerializer.max_guests := None;
     ListingCreateUpdateSerializer.is_available := None;
     ListingCreateUpdateSerializer.minimum_stay := None;
     ListingCreateUpdateSerializer.maximum_stay := Some (Some 1) |}.

(** A partial update that takes the listing off the market. *)
Definition withdraw : ListingCreateUpdateSerializer.data :=
  {| ListingCreateUpdateSerializer.status := None;
     ListingCreateUpdateSerializer.category_id := None;
     ListingCreateUpdateSerializer.location_id := None;
     ListingCreateUpdateSerializer.price_per_night := None;
     ListingCreateUpdateSerializer.max_guests := None;
     ListingCreateUpdateSerializer.is_available := Some false;
     ListingCreateUpdateSerializer.minimum_stay := None;
     ListingCreateUpdateSerializer.maximum_stay := None |}.

(** The body of a new listing. *)
Definition new_listing : ListingCreateUpdateSerializer.data :=
  {| ListingCreateUpdateSerializer.status := Some "published";
     ListingCreateUpdateSerializer.category_id := Some 1;
     ListingCreateUpdateSerializer.location_id := Some 5;
     ListingCreateUpdateSerializer.price_per_night := Some 12000;
     ListingCreateUpdateSerializer.max_guests := Some 4;
     ListingCreateUpdateSerializer.is_available := Some true;
     ListingCreateUpdateSerializer.minimum_stay := Some 2;
     ListingCreateUpdateSerializer.maximum_stay := Some (Some 14) |}.

(** A partial update whose body holds the maximum stay and nothing else. *)
Definition only_maximum_stay (mx : option Z)
  : ListingCreateUpdateSerializer.data :=
  {| ListingCreateUpdateSerializer.status := None;
     ListingCreateUpdateSerializer.category_id := None;
     ListingCreateUpdateSerializer.location_id := None;
     ListingCreateUpdateSerializer.price_per_night := None;
     ListingCreateUpdateSerializer.max_guests := None;
     ListingCreateUpdateSerializer.is_available := None;
     ListingCreateUpdateSerializer.minimum_stay := None;
     ListingCreateUpdateSerializer.maximum_stay := Some mx |}.

(** The message of the stay-bounds check of the listing write serializer. *)
Definition MaximumBelowMinimum : string * string :=
  ("maximum_stay", "Maximum stay cannot be less than minimum stay.").

(** The villa after [shorten_maximum]: minimum two nights, maximum one. *)
Definition short_villa : Listing.t :=
  {| Listing.status := "published";
     Listing.is_available := true;
     Listing.max_guests := 4;
     Listing.minimum_stay := 2;
     Listing.maximum_stay := Some 1;
     Listing.price_per_night := 12000 |}.

Definition short_villa_row : ListingRow.t :=
  {| ListingRow.category := 1;
     ListingRow.location := 5;
     ListingRow.host := 3%N;
     ListingRow.columns := short_villa |}.

Definition db_after_shorten : DB := Listing_save 1%N short_villa_row empty_db.

(** The stay keys of a listing as a body of the write serializer. *)
Definition stay_bounds_of (l : Listing.t) : ListingCreateUpdateSerializer.data :=
  {| ListingCreateUpdateSerializer.status := None;
     ListingCreateUpdateSerializer.category_id := None;
     ListingCreateUpdateSerializer.location_id := None;
     ListingCreateUpdateSerializer.price_per_night := None;
     ListingCreateUpdateSerializer.max_guests := None;
     ListingCreateUpdateSerializer.is_available := None;
     ListingCreateUpdateSerializer.minimum_stay := Some (Listing.minimum_stay l);
     ListingCreateUpdateSerializer.maximum_stay :=
       Some (Listing.maximum_stay l) |}.

(** Bodies of the listing read-write serializer. *)
Definition studio : ListingSerializer.data :=
  {| ListingSerializer.minimum_stay := Some 1;
     ListingSerializer.maximum_stay := Some None;
     ListingSerializer.max_guests := Some 2;
     ListingSerializer.bedrooms := Some 0 |}.

Definition family_home : ListingSerializer.data :=
  {| ListingSerializer.minimum_stay := Some 2;
     ListingSerializer.maximum_stay := Some (Some 14);
     ListingSerializer.max_guests := Some 6;
     ListingSerializer.bedrooms := Some 3 |}.

(** The stay keys of a body of the read-write serializer as a body of the
    write serializer. *)
Definition stay_keys (d : ListingSerializer.data)
  : ListingCreateUpdateSerializer.data :=
  {| ListingCreateUpdateSerializer.status := None;
     ListingCreateUpdateSerializer.category_id := None;
     ListingCreateUpdateSerializer.location_id := None;
     ListingCreateUpdateSerializer.price_per_night := None;
     ListingCreateUpdateSerializer.max_guests := ListingSerializer.max_guests d;
     ListingCreateUpdateSerializer.is_available := None;
     ListingCreateUpdateSerializer.minimum_stay :=
       ListingSerializer.minimum_stay d;
     ListingCreateUpdateSerializer.maximum_stay :=
       ListingSerializer.maximum_stay d |}.

Definition StayBoundsError : exn :=
  ValidationError
    (Message "Minimum stay cannot be greater than maximum stay").
Definition TooManyGuestsError : exn :=
  ValidationError
    (Message "Maximum guests seems too high for the number of bedrooms").

Definition unverified_only : list Review.t :=
  [ {| Review.rating := 5; Review.is_verified := false |};
    {| Review.rating := 3; Review.is_verified := false |} ].

(** ** The field loop with the fields' own validators *)

Module BookingCreateFields.

(** What each field does with a value before the serializer's method for
    that field sees it: its type, range, length and choice validators.  They
    come from the column declarations of the models module, which is not
    among the sources, so they are a parameter: each either refuses the
    value with a message or hands on the value to use.
    [special_requests] is an optional key; the others are present. *)
Record own_validators := {
  own_listing_id : N → string + N;
  own_check_in_date : Z → string + Z;
  own_check_out_date : Z → string + Z;
  own_guests : Z → string + Z;
  own_special_requests : option string → string + option string;
}.

(** One field of the loop of [Serializer.to_internal_value]:
    [validated_value = field.run_validation(primitive_value)], then
    [validate_method(validated_value)]; the method is not called when the
    field itself refuses the value. *)
Definition run_field {A} (own : A → string + A) (method : A → string + A)
    (primitive_value : A) : string + A :=
  match own primitive_value with
  | inl msg => inl msg
  | inr validated_value => method validated_value
  end.

(** The loop over [Meta.fields]: every failure, of a field or of its method,
    is stored under the field's name; the values are returned only when
    there is no failure. *)
Definition to_internal_value (own : own_validators) (db : DB) (today : Z)
    (d : BookingCreateSerializer.data)
  : list (string * string) + BookingCreateSerializer.data :=
  let r_listing_id :=
    run_field (own_listing_id own)
      (BookingCreateSerializer.validate_listing_id db)
      (BookingCreateSerializer.listing_id d) in
  let r_check_in_date :=
    run_field (own_check_in_date own)
      (BookingCreateSerializer.validate_check_in_date today)
      (BookingCreateSerializer.check_in_date d) in
  let r_check_out_date :=
    run_field (own_check_out_date own)
      (BookingCreateSerializer.validate_check_out_date today)
      (BookingCreateSerializer.check_out_date d) in
  let r_guests :=
    run_field (own_guests own) BookingCreateSerializer.validate_guests
      (BookingCreateSerializer.guests d) in
  let r_special_requests :=
    own_special_requests own (BookingCreateSerializer.special_requests d) in
  let errors := [] in
  let errors := collect "listing_id" r_listing_id errors in
  let errors := collect "check_in_date" r_check_in_date errors in
  let errors := collect "check_out_date" r_check_out_date errors in
  let errors := collect "guests" r_guests errors in
  let errors := collect "special_requests" r_special_requests errors in
  match r_listing_id, r_check_in_date, r_check_out_date, r_guests,
        r_special_requests with
  | inr v1, inr v2, inr v3, inr v4, inr v5 =>
      inr {| BookingCreateSerializer.listing_id := v1;
             BookingCreateSerializer.check_in_date := v2;
             BookingCreateSerializer.check_out_date := v3;
             BookingCreateSerializer.guests := v4;
             BookingCreateSerializer.special_requests := v5 |}
  | _, _, _, _, _ => inl errors
  end.

(** [Serializer.run_validation], behind [is_valid()]. *)
Definition run_validation (own : own_validators) (db : DB) (today : Z)
    (d : BookingCreateSerializer.data) : result BookingCreateSerializer.data :=
  match to_internal_value own db today d with
  | inl errors => raise (ValidationError (FieldErrors errors))
  | inr attrs =>
      reraise_as_serializer_error (BookingCreateSerializer.validate db attrs)
  end.

(** Fields that accept every value as it is. *)
Definition accept_all : own_validators :=
  {| own_listing_id := inr;
     own_check_in_date := inr;
     own_check_out_date := inr;
     own_guests := inr;
     own_special_requests := inr |}.

(** The value a field hands on; the value itself where the field refuses. *)
Definition handed_on {A} (own : A → string + A) (v : A) : A :=
  match own v with
  | inr v' => v'
  | inl _ => v
  end.

Definition validated_values (own : own_validators)
    (d : BookingCreateSerializer.data) : BookingCreateSerializer.data :=
  {| BookingCreateSerializer.listing_id :=
       handed_on (own_listing_id own) (BookingCreateSerializer.listing_id d);
     BookingCreateSerializer.check_in_date :=
       handed_on (own_check_in_date own)
                 (BookingCreateSerializer.check_in_date d);
     BookingCreateSerializer.check_out_date :=
       handed_on (own_check_out_date own)
                 (BookingCreateSerializer.check_out_date d);
     BookingCreateSerializer.guests :=
       handed_on (own_guests own) (BookingCreateSerializer.guests d);
     BookingCreateSerializer.special_requests :=
       handed_on (own_special_requests own)
                 (BookingCreateSerializer.special_requests d) |}.

(** The error of one field, stated over propositions: the field's own
    refusal, or else the error [e] of the serializer's check when the
    handed-on value breaks the rule. *)
Definition field_error {A} (field_name : string) (own : A → string + A)
    (v : A) (broken : Prop) `{!Decision broken} (e : string * string)
  : list (string * string) :=
  match own v with
  | inl msg => [(field_name, msg)]
  | inr _ => if decide broken then [e] else []
  end.

(** The field-level phase, stated over propositions: every field on its
    own, every failure reported under its field, in field order. *)
Definition field_level_errors (own : own_validators) (db : DB) (today : Z)
    (d : BookingCreateSerializer.data) : list (string * string) :=
  let a := validated_values own d in
  field_error "listing_id" (own_listing_id own)
    (BookingCreateSerializer.listing_id d)
    (¬ bookable db (BookingCreateSerializer.listing_id a)) InvalidListing
  ++ field_error "check_in_date" (own_check_in_date own)
       (BookingCreateSerializer.check_in_date d)
       (BookingCreateSerializer.check_in_date a ≤ today) InvalidDate_check_in
  ++ field_error "check_out_date" (own_check_out_date own)
       (BookingCreateSerializer.check_out_date d)
       (BookingCreateSerializer.check_out_date a ≤ today)
       InvalidDate_check_out
  ++ field_error "guests" (own_guests own) (BookingCreateSerializer.guests d)
       (BookingCreateSerializer.guests a ≤ 0) InvalidGuests
  ++ match own_special_requests own
             (BookingCreateSerializer.special_requests d) with
     | inl msg => [("special_requests", msg)]
     | inr _ => []
     end.

End BookingCreateFields.

(** ** The update of a booking over an untyped body *)

(** A scalar of a request body. *)
Inductive value :=
| VNull
| VInt (z : Z)
| VStr (s : string).

(** [str(v)], as an f-string renders it. *)
Definition py_str (v : value) : string :=
  match v with
  | VNull => "None"
  | VInt z => pretty z
  | VStr s => s
  end.

(** A serializer field: its name, the field's own [run_validation] (a
    parameter, as above; it is given the value of the key, or [None] for an
    absent key, and answers with a refusal, with [None] to skip the key, or
    with the value to use), and the serializer's [validate_<name>] method if
    there is one. *)
Module Field.
Record t := {
  field_name : string;
  run_validation : option value → string + option value;
  validate_method : option (value → string + value);
}.
End Field.

Module Serializer.

(** One field of the loop of [to_internal_value].  In a partial update an
    absent key is skipped before the field sees it. *)
Definition run_field (partial : bool) (f : Field.t)
    (data : gmap string value) : string + option value :=
  match data !! Field.field_name f, partial with
  | None, true => inr None
  | primitive_value, _ =>
      match Field.run_validation f primitive_value with
      | inl msg => inl msg
      | inr None => inr None
      | inr (Some validated_value) =>
          match Field.validate_method f with
          | None => inr (Some validated_value)
          | Some validate_method =>
              match validate_method validated_value with
              | inl msg => inl msg
              | inr v => inr (Some v)
              end
          end
      end
  end.

(** One turn of the loop: [errors[name] = detail] or [ret[name] = value]. *)
Definition field_step (partial : bool) (data : gmap string value)
    (acc : list (string * string) * gmap string value) (f : Field.t)
  : list (string * string) * gmap string value :=
  match run_field partial f data with
  | inl msg => (acc.1 ++ [(Field.field_name f, msg)], acc.2)
  | inr None => acc
  | inr (Some v) => (acc.1, <[Field.field_name f := v]> acc.2)
  end.

(** [Serializer.to_internal_value]: only the serializer's fields are read
    from the body. *)
Definition to_internal_value (partial : bool) (fields : list Field.t)
    (data : gmap string value)
  : list (string * string) + gmap string value :=
  let acc := foldl (field_step partial data) ([], ∅) fields in
  match acc.1 with
  | [] => inr acc.2
  | _ :: _ => inl acc.1
  end.

End Serializer.

Module BookingUpdateRequest.

(** [Meta.fields] of [BookingUpdateSerializer]. *)
Definition Meta_fields : list string := ["status"; "special_requests"].

(** [validate_status] on a value of any type: a value that is not a string
    is in no list of the transition table. *)
Definition validate_status (instance : Booking.t) (requested : value)
  : string + value :=
  match requested with
  | VStr s =>
      match BookingUpdateSerializer.validate_status instance s with
      | inl msg => inl msg
      | inr s' => inr (VStr s')
      end
  | other =>
      inl ("Cannot change status from " +:+ Booking.status instance
             +:+ " to " +:+ py_str other +:+ ".")
  end.

(** [getattr(self, 'validate_' + field_name, None)]: the class defines
    [validate_status] and no other such method. *)
Definition validate_method (instance : Booking.t) (field_name : string)
  : option (value → string + value) :=
  if bool_decide (field_name = "status")
  then Some (validate_status instance)
  else None.

(** The fields of the serializer: one for each name of [Meta.fields]. *)
Definition get_fields (own : string → option value → string + option value)
    (instance : Booking.t) : list Field.t :=
  (λ name, {| Field.field_name := name;
              Field.run_validation := own name;
              Field.validate_method := validate_method instance name |})
    <$> Meta_fields.

(** The row as the attributes of the model instance. *)
Definition attributes (b : Booking.t) : gmap string value :=
  <["listing" := VInt (Z.of_N (Booking.listing b))]>
  (<["user" := VInt (Z.of_N (Booking.user b))]>
  (<["check_in_date" := VInt (Booking.check_in_date b)]>
  (<["check_out_date" := VInt (Booking.check_out_date b)]>
  (<["guests" := VInt (Booking.guests b)]>
  (<["total_price" := VInt (Booking.total_price b)]>
  (<["status" := VStr (Booking.status b)]>
  (<["special_requests" :=
       match Booking.special_requests b with
       | Some s => VStr s
       | None => VNull
       end]> ∅))))))).

(** [ModelSerializer.update]: [setattr(instance, attr, value)] for every
    item of the validated data. *)
Definition update (instance : gmap string value)
    (validated_data : gmap string value) : gmap string value :=
  validated_data ∪ instance.

(** [is_valid()] followed by [save()] on a body with any keys. *)
Definition save (partial : bool)
    (own : string → option value → string + option value)
    (instance : Booking.t) (data : gmap string value)
  : result (gmap string value) :=
  match Serializer.to_internal_value partial (get_fields own instance) data
  with
  | inl errors => raise (ValidationError (FieldErrors errors))
  | inr validated_data => ret (update (attributes instance) validated_data)
  end.

(** Fields that accept every value and skip an absent key. *)
Definition accept (field_name : string) (v : option value)
  : string + option value := inr v.

(** A typed body as an untyped one. *)
Definition body_of (d : BookingUpdateSerializer.data) : gmap string value :=
  match BookingUpdateSerializer.status d with
  | Some s => <["status" := VStr s]>
  | None => id
  end
  (match BookingUpdateSerializer.special_requests d with
   | Some n => <["special_requests" := VStr n]> ∅
   | None => ∅
   end).

End BookingUpdateRequest.

(** Sample data of the revised statements. *)


(** A guests column that holds at most 2147483647, and a request beyond
    it. *)
Definition bounded_guests : BookingCreateFields.own_validators :=
  {| BookingCreateFields.own_listing_id := inr;
     BookingCreateFields.own_check_in_date := inr;
     BookingCreateFields.own_check_out_date := inr;
     BookingCreateFields.own_guests :=
       λ v, if v >? 2147483647
            then inl "Ensure this value is less than or equal to 2147483647."
            else inr v;
     BookingCreateFields.own_special_requests := inr |}.

Definition huge_party : BookingCreateSerializer.data :=
  request 1 june_5 june_8 (2 ^ 64).

(** A body that confirms a booking and also tries to set its price and its
    check-in date. *)
Definition greedy_body : gmap string value :=
  <["status" := VStr "confirmed"]>
  (<["total_price" := VInt 1]>
  (<["check_in_date" := VInt 0]> ∅)).

(** * Properties *)

(** ** Query sets *)

Lemma qs_exists_true {A} (q : gmap N A) :
  qs_exists q = true ↔ ∃ pk x, q !! pk = Some x.
Proof.
  unfold qs_exists. split.
  - destruct (map_to_list q) as [|[pk x] rest] eqn:E; [discriminate|].
    intros _. exists pk, x. apply elem_of_map_to_list. rewrite E. left.
  - intros (pk & x & Hx). apply elem_of_map_to_list in Hx.
    destruct (map_to_list q); [by apply elem_of_nil in Hx | reflexivity].
Qed.

Lemma status_in_iff_active (b : Booking.t) :
  Booking.status b ∈ ["confirmed"; "pending"] ↔ active b.
Proof.
  unfold active. rewrite !elem_of_cons, elem_of_nil. tauto.
Qed.

Lemma overlapping_exists (db : DB) (d : BookingCreateSerializer.data) :
  qs_exists (BookingCreateSerializer.overlapping_bookings db d) = true
  ↔ map_Exists (λ _ b, conflicting d b) (bookings db).
Proof.
  rewrite qs_exists_true. unfold BookingCreateSerializer.overlapping_bookings.
  unfold map_Exists, conflicting, overlaps.
  split.
  - intros (pk & b & Hb). apply map_lookup_filter_Some in Hb as [Hb HP].
    simpl in HP. rewrite status_in_iff_active in HP. eauto.
  - intros (pk & b & Hb & HP). exists pk, b.
    apply map_lookup_filter_Some. simpl.
    rewrite status_in_iff_active. auto.
Qed.

(** ** Admission: the two phases of validation *)

Section Admission.
Import BookingCreateSerializer.

Lemma validate_listing_id_cases (db : DB) (pk : N) :
  validate_listing_id db pk =
    if decide (bookable db pk) then inr pk else inl (InvalidListing.2).
Proof.
  unfold validate_listing_id, Listing_objects_get_published_available.
  destruct (decide (bookable db pk)) as [Hb|Hb]; unfold bookable in Hb;
    destruct (listings db !! pk) as [l|]; try tauto.
  - destruct Hb as [-> ->]. reflexivity.
  - case_bool_decide; [|reflexivity].
    destruct (Listing.is_available l); [tauto | reflexivity].
Qed.

Lemma to_internal_value_cases (db : DB) (today : Z) (d : data) :
  to_internal_value db today d =
    match field_level_errors db today d with
    | [] => inr d
    | e :: errs => inl (e :: errs)
    end.
Proof.
  unfold to_internal_value, field_level_errors.
  rewrite validate_listing_id_cases.
  unfold validate_check_in_date, validate_check_out_date, validate_guests.
  destruct (decide (bookable db (listing_id d)));
    destruct (Z.leb_spec (check_in_date d) today);
    destruct (Z.leb_spec (check_out_date d) today);
    destruct (Z.leb_spec (guests d) 0);
    repeat case_decide; try lia; reflexivity.
Qed.

Lemma field_level_errors_nil (db : DB) (today : Z) (d : data) :
  field_level_errors db today d = []
  ↔ bookable db (listing_id d)
    ∧ today < check_in_date d ∧ today < check_out_date d ∧ 0 < guests d.
Proof.
  unfold field_level_errors.
  repeat case_decide; simpl; split; intros; destruct_and?;
    try discriminate; try lia; try tauto; repeat split; try lia; auto.
Qed.

Lemma to_internal_value_passes (db : DB) (today : Z) (d : data) :
  to_internal_value db today d = inr d ↔ field_level_errors db today d = [].
Proof.
  rewrite to_internal_value_cases.
  destruct (field_level_errors db today d); split; congruence.
Qed.

Lemma bookable_lookup (db : DB) (pk : N) :
  bookable db pk → ∃ l, listings db !! pk = Some l.
Proof. unfold bookable. destruct (listings db !! pk); [eauto | tauto]. Qed.

Lemma over_maximum_stay_true (l : Listing.t) (d : data) :
  over_maximum_stay l (check_out_date d - check_in_date d) = true
  ↔ stay_too_long l d.
Proof.
  unfold over_maximum_stay, stay_too_long, truthy, nights.
  destruct (Listing.maximum_stay l) as [m|]; simpl; [|split; [discriminate|tauto]].
  rewrite andb_true_iff, negb_true_iff, Z.eqb_neq, Z.gtb_lt. lia.
Qed.

(** The cross-field phase on an existing listing: the outcome of
    [validate], as the caller of [is_valid()] receives it. *)
Lemma validate_cases (db : DB) (l : Listing.t) (d : data) :
  listings db !! listing_id d = Some l →
  reraise_as_serializer_error (validate db d) =
    match first_cross_field_error db l d with
    | Some e => rejected e
    | None => inr d
    end.
Proof.
  intros Hl. unfold validate, first_cross_field_error, Listing_objects_get.
  rewrite Hl. unfold bind, ret, raise, rejected, nights. cbv zeta.
  destruct (decide (check_out_date d ≤ check_in_date d)) as [H3|H3].
  { rewrite (proj2 (Z.leb_le _ _) H3). reflexivity. }
  rewrite (proj2 (Z.leb_gt _ _)) by lia.
  destruct (decide (guests d > Listing.max_guests l)) as [H4|H4].
  { rewrite (proj2 (Z.gtb_lt _ _)) by lia. reflexivity. }
  rewrite Z.gtb_ltb, (proj2 (Z.ltb_ge _ _)) by lia.
  destruct (decide (check_out_date d - check_in_date d
                    < Listing.minimum_stay l)) as [H5|H5].
  { rewrite (proj2 (Z.ltb_lt _ _) H5). reflexivity. }
  rewrite (proj2 (Z.ltb_ge _ _)) by lia.
  destruct (decide (stay_too_long l d)) as [H6|H6].
  { rewrite (proj2 (over_maximum_stay_true l d) H6). reflexivity. }
  destruct (over_maximum_stay l _) eqn:E6;
    [apply over_maximum_stay_true in E6; tauto|].
  destruct (decide (map_Exists (λ _ b, conflicting d b) (bookings db)))
    as [H7|H7].
  { rewrite (proj2 (overlapping_exists db d) H7). reflexivity. }
  destruct (qs_exists _) eqn:E7;
    [apply overlapping_exists in E7; tauto | reflexivity].
Qed.

Lemma run_validation_after_fields (db : DB) (today : Z) (d : data)
    (l : Listing.t) :
  to_internal_value db today d = inr d →
  listings db !! listing_id d = Some l →
  run_validation db today d =
    match first_cross_field_error db l d with
    | Some e => rejected e
    | None => inr d
    end.
Proof.
  intros Hf Hl. unfold run_validation. rewrite Hf.
  by apply validate_cases.
Qed.

Lemma run_validation_accepted (db : DB) (today : Z) (d vd : data) :
  run_validation db today d = inr vd →
  vd = d
  ∧ to_internal_value db today d = inr d
  ∧ ∃ l, listings db !! listing_id d = Some l
       ∧ first_cross_field_error db l d = None.
Proof.
  unfold run_validation. rewrite to_internal_value_cases.
  destruct (field_level_errors db today d) eqn:Hf; [|discriminate].
  apply field_level_errors_nil in Hf as Hf'.
  destruct Hf' as (Hb & _). apply bookable_lookup in Hb as [l Hl].
  rewrite (validate_cases db l d Hl).
  destruct (first_cross_field_error db l d) eqn:Hc; [discriminate|].
  intros [= <-]. eauto.
Qed.

Lemma full_to_internal_value_cases (own : BookingCreateFields.own_validators)
    (db : DB) (today : Z) (d : data) :
  BookingCreateFields.to_internal_value own db today d =
    match BookingCreateFields.field_level_errors own db today d with
    | [] => inr (BookingCreateFields.validated_values own d)
    | e :: errs => inl (e :: errs)
    end.
Proof.
  unfold BookingCreateFields.to_internal_value,
    BookingCreateFields.field_level_errors, BookingCreateFields.field_error,
    BookingCreateFields.validated_values, BookingCreateFields.handed_on,
    BookingCreateFields.run_field.
  cbv zeta. simpl.
  destruct (BookingCreateFields.own_listing_id own (listing_id d))
    as [m1|v1];
  destruct (BookingCreateFields.own_check_in_date own (check_in_date d))
    as [m2|v2];
  destruct (BookingCreateFields.own_check_out_date own (check_out_date d))
    as [m3|v3];
  destruct (BookingCreateFields.own_guests own (guests d)) as [m4|v4];
  destruct (BookingCreateFields.own_special_requests own
              (special_requests d)) as [m5|v5];
  rewrite ?validate_listing_id_cases;
  unfold validate_check_in_date, validate_check_out_date, validate_guests;
  repeat match goal with
         | |- context [decide (bookable ?a ?b)] =>
             destruct (decide (bookable a b))
         | |- context [?a <=? ?b] => destruct (Z.leb_spec a b)
         end;
  repeat case_decide; simpl; try lia; try tauto; reflexivity.
Qed.

Lemma full_field_level_errors_nil (own : BookingCreateFields.own_validators)
    (db : DB) (today : Z) (d : data) :
  BookingCreateFields.field_level_errors own db today d = [] →
  bookable db (listing_id (BookingCreateFields.validated_values own d)).
Proof.
  unfold BookingCreateFields.field_level_errors,
    BookingCreateFields.field_error.
  cbv zeta. intros Hnil. apply app_eq_nil in Hnil as [Hnil _].
  destruct (BookingCreateFields.own_listing_id own (listing_id d));
    [discriminate|].
  case_decide as Hb; [discriminate|].
  destruct (decide (bookable db
    (listing_id (BookingCreateFields.validated_values own d)))) as [Hy|Hn];
    [exact Hy | tauto].
Qed.

(** The loop of above is the full loop with fields that accept every
    value as it is. *)
Lemma run_validation_accept_all (db : DB) (today : Z) (d : data) :
  BookingCreateFields.run_validation BookingCreateFields.accept_all db today d
  = run_validation db today d.
Proof.
  unfold BookingCreateFields.run_validation, run_validation.
  rewrite full_to_internal_value_cases, to_internal_value_cases.
  assert (BookingCreateFields.field_level_errors
            BookingCreateFields.accept_all db today d
          = field_level_errors db today d) as ->.
  { unfold BookingCreateFields.field_level_errors,
      BookingCreateFields.field_error, field_level_errors. simpl.
    rewrite app_nil_r.
    destruct (decide (bookable db (listing_id d)));
      repeat case_decide; try tauto; reflexivity. }
  assert (BookingCreateFields.validated_values BookingCreateFields.accept_all d
          = d) as -> by (by destruct d).
  reflexivity.
Qed.

(** C6 (amended).  Validation has two phases.  In the first, every field
    is checked on its own: the field's own validators and, when they pass,
    the serializer's check of that field (the listing exists, is published
    and available; check-in is after today; check-out is after today; there
    is at least one guest).  All fields are checked, and every one that
    fails is reported, each under its own field name.  Only when none fails
    do the cross-field checks run, on the values the fields handed on, and
    these fail fast in the order check-out after check-in, guest capacity,
    minimum stay, maximum stay, overlap: exactly one error is reported, that
    of the earliest violated step, under [check_out_date], [guests],
    [check_out_date], [check_out_date] and the non-field key respectively. *)
Theorem C6_two_phase_validation (own : BookingCreateFields.own_validators)
    (db : DB) (today : Z) (d : data) :
  (BookingCreateFields.field_level_errors own db today d ≠ []
   ∧ BookingCreateFields.run_validation own db today d =
       inl (ValidationError (FieldErrors
              (BookingCreateFields.field_level_errors own db today d))))
  ∨ (BookingCreateFields.field_level_errors own db today d = []
     ∧ ∃ l, listings db
              !! listing_id (BookingCreateFields.validated_values own d)
            = Some l
          ∧ BookingCreateFields.run_validation own db today d =
              match first_cross_field_error db l
                      (BookingCreateFields.validated_values own d) with
              | Some e => rejected e
              | None => inr (BookingCreateFields.validated_values own d)
              end).
Proof.
  destruct (BookingCreateFields.field_level_errors own db today d)
    as [|e errs] eqn:Hf.
  - right. split; [reflexivity|].
    apply full_field_level_errors_nil in Hf as Hb.
    apply bookable_lookup in Hb as [l Hl]. exists l. split; [done|].
    unfold BookingCreateFields.run_validation.
    rewrite full_to_internal_value_cases, Hf.
    by apply validate_cases.
  - left. split; [discriminate|].
    unfold BookingCreateFields.run_validation.
    by rewrite full_to_internal_value_cases, Hf.
Qed.

(** With a guests column that holds at most 2147483647, a request for 2^64
    guests gets the range error of the field, not the capacity error. *)
Example field_range_example :
  BookingCreateFields.run_validation bounded_guests sample_db may_1 huge_party
  = rejected
      ("guests", "Ensure this value is less than or equal to 2147483647.").
Proof. vm_compute; reflexivity. Qed.

(** C6 (as stated) fails: a request on an unknown listing whose check-in
    lies in the past violates the first two steps, and both errors are
    reported, not the listing error alone. *)
Lemma C6_counterexample :
  ¬ bookable empty_db (listing_id stale_request)
  ∧ check_in_date stale_request ≤ may_1
  ∧ reported_errors (run_validation empty_db may_1 stale_request)
    = [InvalidListing; InvalidDate_check_in]
  ∧ run_validation empty_db may_1 stale_request ≠ rejected InvalidListing.
Proof.
  split; [|split; [|split]].
  - vm_compute. tauto.
  - vm_compute. discriminate.
  - vm_compute. reflexivity.
  - vm_compute. discriminate.
Qed.




(** The spec's dated example: with a confirmed booking from June 1 to
    June 5, a request from June 4 to June 8 is refused and a request from
    June 5 to June 8 is admitted. *)
Example overlap_example :
  run_validation sample_db may_1 one_day_early = rejected DateRangeUnavailable
  ∧ run_validation sample_db may_1 back_to_back = inr back_to_back.
Proof. split; vm_compute; reflexivity. Qed.

Lemma rejected_inj {A} (e e' : string * string) :
  @rejected A e = rejected e' → e = e'.
Proof. unfold rejected. congruence. Qed.




(** The spec's stay example: minimum 2, maximum 14, at most 4 guests. One
    night is refused for its length; two nights with four guests pass. *)
Example stay_example :
  run_validation empty_db may_1 (request 1 june_4 june_5 2)
    = rejected (StayTooShort villa)
  ∧ run_validation empty_db may_1 (request 1 june_4 (june_4 + 2) 4)
    = inr (request 1 june_4 (june_4 + 2) 4).
Proof. split; vm_compute; reflexivity. Qed.

(** C8.  When the listing's maximum stay is zero or unset, the maximum-stay
    test is skipped: a request that reaches the stay-length step with at
    least the minimum stay passes it however long it is, and [validate] is
    decided by the overlap query alone. *)
Theorem C8_zero_maximum_stay (db : DB) (today : Z) (d : data) (l : Listing.t) :
  to_internal_value db today d = inr d →
  listings db !! listing_id d = Some l →
  check_in_date d < check_out_date d →
  guests d ≤ Listing.max_guests l →
  Listing.minimum_stay l ≤ nights d →
  Listing.maximum_stay l = Some 0 ∨ Listing.maximum_stay l = None →
  over_maximum_stay l (nights d) = false
  ∧ validate db d =
      (if qs_exists (overlapping_bookings db d)
       then raise (ValidationError
              (Message "The selected dates are not available for booking."))
       else ret d)
  ∧ ¬ StayDurationInvalid l (run_validation db today d)
  ∧ (run_validation db today d = inr d
     ∨ run_validation db today d = rejected DateRangeUnavailable).
Proof.
  intros Hf Hl H3 H4 H5 Hmax.
  assert (over_maximum_stay l (nights d) = false) as Hover.
  { unfold over_maximum_stay. by destruct Hmax as [-> | ->]. }
  assert (validate db d =
      (if qs_exists (overlapping_bookings db d)
       then raise (ValidationError
              (Message "The selected dates are not available for booking."))
       else ret d)) as Hval.
  { unfold validate, Listing_objects_get. rewrite Hl.
    unfold bind, ret, raise. cbv zeta. unfold nights in *.
    rewrite (proj2 (Z.leb_gt _ _)) by lia.
    rewrite Z.gtb_ltb, (proj2 (Z.ltb_ge _ _)) by lia.
    rewrite (proj2 (Z.ltb_ge _ _)) by lia.
    rewrite Hover. reflexivity. }
  split; [done|]. split; [done|].
  unfold run_validation, StayDurationInvalid. rewrite Hf, Hval.
  destruct (qs_exists (overlapping_bookings db d)); simpl.
  - split; [|by right]. unfold rejected. intros [Hr|Hr]; discriminate Hr.
  - split; [|by left]. unfold rejected. intros [Hr|Hr]; discriminate Hr.
Qed.

Lemma C8_witness :
  Listing.maximum_stay cabin = Some 0
  ∧ Listing.minimum_stay cabin ≤ nights (request 2 june_1 (june_1 + 400) 2)
  ∧ (run_validation empty_db may_1 (request 2 june_1 (june_1 + 400) 2)
       = inr (request 2 june_1 (june_1 + 400) 2)
     ∨ run_validation empty_db may_1 (request 2 june_1 (june_1 + 400) 2)
       = rejected DateRangeUnavailable).
Proof.
  split; [reflexivity|]. split; [vm_compute; discriminate|].
  refine (proj2 (proj2 (proj2
    (C8_zero_maximum_stay empty_db may_1 (request 2 june_1 (june_1 + 400) 2)
       cabin _ _ _ _ _ _)))).
  - vm_compute; reflexivity.
  - vm_compute; reflexivity.
  - vm_compute; reflexivity.
  - vm_compute; discriminate.
  - vm_compute; discriminate.
  - left. reflexivity.
Defined.

(** C2.  Every admitted request is turned into a booking by [create], and
    the booking's total price is the nightly price of its listing times the
    number of nights, check-out minus check-in in days, which is at least
    one. *)
Theorem C2_total_price (db : DB) (today : Z) (request_user : N)
    (d validated_data : data) :
  run_validation db today d = inr validated_data →
  ∃ b l,
    create db request_user validated_data = inr b
    ∧ submit db today request_user d = inr b
    ∧ listings db !! Booking.listing b = Some l
    ∧ Booking.check_in_date b = check_in_date d
    ∧ Booking.check_out_date b = check_out_date d
    ∧ Booking.total_price b
      = Listing.price_per_night l
        * (Booking.check_out_date b - Booking.check_in_date b)
    ∧ 1 ≤ Booking.check_out_date b - Booking.check_in_date b.
Proof.
  intros Hrun.
  destruct (run_validation_accepted db today d validated_data Hrun)
    as (-> & Hf & l & Hl & Hc).
  unfold submit. rewrite Hrun. unfold bind, create, Listing_objects_get.
  rewrite Hl. unfold bind, ret. cbv zeta.
  eexists _, l. repeat split; simpl; try done.
  unfold first_cross_field_error in Hc.
  case_decide; [discriminate|]. lia.
Qed.

Lemma C2_witness :
  run_validation sample_db may_1 back_to_back = inr back_to_back
  ∧ ∃ b l,
      create sample_db 8%N back_to_back = inr b
      ∧ submit sample_db may_1 8%N back_to_back = inr b
      ∧ listings sample_db !! Booking.listing b = Some l
      ∧ Booking.check_in_date b = check_in_date back_to_back
      ∧ Booking.check_out_date b = check_out_date back_to_back
      ∧ Booking.total_price b
        = Listing.price_per_night l
          * (Booking.check_out_date b - Booking.check_in_date b)
      ∧ 1 ≤ Booking.check_out_date b - Booking.check_in_date b.
Proof.
  split; [vm_compute; reflexivity|].
  apply (C2_total_price sample_db may_1 8%N back_to_back back_to_back).
  vm_compute; reflexivity.
Defined.

(** Three nights at 120.00 a night cost 360.00. *)
Example price_example :
  ∃ b, submit sample_db may_1 8%N back_to_back = inr b
       ∧ Booking.total_price b = 36000.
Proof. eexists. split; vm_compute; reflexivity. Qed.

(** C9.  A request with zero or fewer guests is rejected with the error of
    the [guests] field, whatever else the request holds, although such a
    count does not exceed the capacity of any listing that takes a guest. *)
Theorem C9_guests_lower_bound (db : DB) (today : Z) (d : data) :
  guests d ≤ 0 →
  validate_guests (guests d) = inl (InvalidGuests.2)
  ∧ (∃ errs, run_validation db today d
             = inl (ValidationError (FieldErrors errs))
           ∧ InvalidGuests ∈ errs)
  ∧ ∀ l : Listing.t, 1 ≤ Listing.max_guests l →
      (guests d >? Listing.max_guests l) = false.
Proof.
  intros Hg. split; [|split].
  - unfold validate_guests. by rewrite (proj2 (Z.leb_le _ _) Hg).
  - unfold run_validation. rewrite to_internal_value_cases.
    assert (InvalidGuests ∈ field_level_errors db today d) as Hin.
    { unfold field_level_errors. rewrite !elem_of_app.
      do 3 right. case_decide; [left | lia]. }
    destruct (field_level_errors db today d) as [|e errs];
      [by apply elem_of_nil in Hin|].
    eexists. split; [reflexivity | exact Hin].
  - intros l Hl. rewrite Z.gtb_ltb. apply Z.ltb_ge. lia.
Qed.

Lemma C9_witness :
  guests (request 1 june_5 june_8 0) ≤ 0
  ∧ ∃ errs, run_validation sample_db may_1 (request 1 june_5 june_8 0)
            = inl (ValidationError (FieldErrors errs))
          ∧ InvalidGuests ∈ errs.
Proof.
  split; [vm_compute; discriminate|].
  refine (proj1 (proj2
    (C9_guests_lower_bound sample_db may_1 (request 1 june_5 june_8 0) _))).
  vm_compute; discriminate.
Defined.

End Admission.

(** ** Status transitions and updates *)

Section Updates.
Import BookingUpdateSerializer.

Lemma allowed_transitions_lookup (current : string) :
  default [] (allowed_transitions !! current) =
    if decide (current = "pending") then ["confirmed"; "cancelled"]
    else if decide (current = "confirmed") then ["completed"; "cancelled"]
    else [].
Proof.
  unfold allowed_transitions.
  repeat case_decide; subst; try reflexivity.
  rewrite !lookup_insert.
  repeat case_decide; subst; try congruence; try reflexivity.
Qed.

Lemma allowed_iff_permitted (current requested : string) :
  requested ∈ default [] (allowed_transitions !! current)
  ↔ permitted current requested.
Proof.
  rewrite allowed_transitions_lookup. unfold permitted.
  repeat case_decide; subst; rewrite ?elem_of_cons, ?elem_of_nil;
    split; intros; destruct_or?; destruct_and?; subst;
    try congruence; try discriminate; auto.
Qed.

Lemma validate_status_cases (instance : Booking.t) (value : string) :
  validate_status instance value =
    if decide (permitted (Booking.status instance) value)
    then inr value
    else inl (IllegalTransition (Booking.status instance) value).
Proof.
  unfold validate_status, IllegalTransition.
  pose proof (allowed_iff_permitted (Booking.status instance) value) as H.
  case_bool_decide; case_decide; tauto.
Qed.

Lemma submit_cases (instance : Booking.t) (d : data) :
  submit instance d =
    match status d with
    | None => inr (update instance d)
    | Some value =>
        if decide (permitted (Booking.status instance) value)
        then inr (update instance d)
        else inl (ValidationError (FieldErrors
               [("status",
                 IllegalTransition (Booking.status instance) value)]))
    end.
Proof.
  unfold submit, run_validation, to_internal_value.
  destruct (status d) as [value|]; [|reflexivity].
  rewrite validate_status_cases. by case_decide.
Qed.

(** C3.  The status validator accepts a requested status exactly for the
    pairs pending to confirmed, pending to cancelled, confirmed to completed
    and confirmed to cancelled; for every other pair of current and
    requested status it fails, and the message names both.  The update
    operation with a status in its body succeeds or fails accordingly, the
    failure being reported under the [status] field. *)
Theorem C3_status_transitions (instance : Booking.t) (value : string)
    (note : option string) :
  (validate_status instance value = inr value
   ↔ permitted (Booking.status instance) value)
  ∧ (validate_status instance value
       = inl (IllegalTransition (Booking.status instance) value)
     ↔ ¬ permitted (Booking.status instance) value)
  ∧ submit instance {| status := Some value; special_requests := note |}
    = if decide (permitted (Booking.status instance) value)
      then inr (update instance
                  {| status := Some value; special_requests := note |})
      else inl (ValidationError (FieldErrors
             [("status", IllegalTransition (Booking.status instance) value)])).
Proof.
  rewrite submit_cases, validate_status_cases. simpl.
  case_decide; repeat split; try done; try tauto.
Qed.

(** Nothing leaves a terminal status; in particular cancelled to confirmed
    is refused. *)
Lemma terminal_status_is_final (instance : Booking.t) (value : string) :
  Booking.status instance = "cancelled"
  ∨ Booking.status instance = "completed" →
  validate_status instance value
  = inl (IllegalTransition (Booking.status instance) value).
Proof.
  intros Hterm. rewrite validate_status_cases.
  case_decide as Hp; [|reflexivity].
  unfold permitted in Hp. destruct Hterm as [Ht|Ht]; rewrite Ht in Hp;
    destruct_or?; destruct_and?; discriminate.
Qed.

Example cancelled_to_confirmed :
  validate_status
    (update first_week {| status := Some "cancelled"; special_requests := None |})
    "confirmed"
  = inl "Cannot change status from cancelled to confirmed.".
Proof. vm_compute; reflexivity. Qed.

Lemma submit_update_inv (instance : Booking.t) (d : data) (b' : Booking.t) :
  submit instance d = inr b' → b' = update instance d.
Proof.
  rewrite submit_cases.
  destruct (status d); [case_decide; [|discriminate]|]; congruence.
Qed.

Lemma field_loop_keys (partial : bool) (body : gmap string value)
    (fields : list Field.t)
    (acc : list (string * string) * gmap string value) (k : string) :
  is_Some ((foldl (Serializer.field_step partial body) acc fields).2 !! k) →
  is_Some (acc.2 !! k) ∨ k ∈ Field.field_name <$> fields.
Proof.
  revert acc. induction fields as [|f fs IH]; intros acc; simpl; [auto|].
  intros Hk. apply IH in Hk as [Hk|Hk]; [|right; by apply elem_of_cons; right].
  unfold Serializer.field_step in Hk.
  destruct (Serializer.run_field partial f body) as [msg|[v|]]; simpl in Hk;
    [by left | | by left].
  destruct (decide (Field.field_name f = k)) as [<-|Hne].
  - right. apply elem_of_cons. by left.
  - left. by rewrite lookup_insert_ne in Hk.
Qed.

Lemma to_internal_value_keys (partial : bool) (fields : list Field.t)
    (body validated_data : gmap string value) (k : string) :
  Serializer.to_internal_value partial fields body = inr validated_data →
  k ∉ Field.field_name <$> fields →
  validated_data !! k = None.
Proof.
  unfold Serializer.to_internal_value. cbv zeta.
  destruct (foldl _ _ fields).1; [|discriminate].
  intros [= <-] Hk. apply eq_None_not_Some. intros Hsome.
  apply field_loop_keys in Hsome as [Hsome|Hin]; [|done].
  simpl in Hsome. rewrite lookup_empty in Hsome. by destruct Hsome.
Qed.

Lemma save_inv (partial : bool)
    (own : string → option value → string + option value)
    (instance : Booking.t) (body attrs' : gmap string value) :
  BookingUpdateRequest.save partial own instance body = inr attrs' →
  ∀ attr, attr ∉ BookingUpdateRequest.Meta_fields →
    attrs' !! attr = BookingUpdateRequest.attributes instance !! attr.
Proof.
  unfold BookingUpdateRequest.save.
  destruct (Serializer.to_internal_value partial _ body)
    as [errors|validated_data] eqn:Hv; [discriminate|].
  intros [= <-] attr Hattr. unfold BookingUpdateRequest.update.
  apply lookup_union_r.
  by apply (to_internal_value_keys partial _ body validated_data attr Hv).
Qed.

(** C7.  Whatever keys the body of an update holds, and whatever it tries to
    set, an update that succeeds changes no attribute of the booking other
    than the status and the special requests: the listing, the owner, the
    dates, the guest count and the total price are as they were.  Only the
    names in [Meta.fields] are read from the body. *)
Theorem C7_update_frame (partial : bool)
    (own : string → option value → string + option value)
    (instance : Booking.t) (body attrs' : gmap string value) :
  BookingUpdateRequest.save partial own instance body = inr attrs' →
  (∀ attr, attr ∉ BookingUpdateRequest.Meta_fields →
     attrs' !! attr = BookingUpdateRequest.attributes instance !! attr)
  ∧ attrs' !! "total_price" = Some (VInt (Booking.total_price instance))
  ∧ attrs' !! "check_in_date" = Some (VInt (Booking.check_in_date instance))
  ∧ attrs' !! "check_out_date"
    = Some (VInt (Booking.check_out_date instance))
  ∧ attrs' !! "guests" = Some (VInt (Booking.guests instance))
  ∧ attrs' !! "listing" = Some (VInt (Z.of_N (Booking.listing instance)))
  ∧ attrs' !! "user" = Some (VInt (Z.of_N (Booking.user instance))).
Proof.
  intros Hsave.
  pose proof (save_inv partial own instance body attrs' Hsave) as Hframe.
  split; [exact Hframe|].
  repeat split; rewrite Hframe;
    try (unfold BookingUpdateRequest.Meta_fields;
         rewrite !elem_of_cons, elem_of_nil; intros [?|[?|?]];
         done || discriminate);
    unfold BookingUpdateRequest.attributes; by simplify_map_eq.
Qed.

Lemma C7_witness :
  ∃ attrs',
    BookingUpdateRequest.save true BookingUpdateRequest.accept second_week
      greedy_body = inr attrs'
    ∧ attrs' !! "total_price" = Some (VInt (Booking.total_price second_week))
    ∧ attrs' !! "check_in_date"
      = Some (VInt (Booking.check_in_date second_week)).
Proof.
  destruct (BookingUpdateRequest.save true BookingUpdateRequest.accept
              second_week greedy_body) as [e|attrs'] eqn:Hsave;
    [vm_compute in Hsave; discriminate|].
  exists attrs'. split; [reflexivity|].
  destruct (C7_update_frame true BookingUpdateRequest.accept second_week
              greedy_body attrs' Hsave) as (_ & Hp & Hci & _).
  by split.
Defined.

(** The body of above that also confirms the booking: the status changes,
    the price and the check-in date it tried to set do not. *)
Example greedy_body_example :
  ∃ attrs',
    BookingUpdateRequest.save true BookingUpdateRequest.accept second_week
      greedy_body = inr attrs'
    ∧ attrs' !! "status" = Some (VStr "confirmed")
    ∧ attrs' !! "total_price" = Some (VInt 36000)
    ∧ attrs' !! "check_in_date" = Some (VInt june_5).
Proof. eexists. split; [vm_compute; reflexivity|]. by vm_compute. Qed.

(** On a body that holds only typed values of the two fields, the untyped
    update and the typed one of above agree. *)
Lemma typed_update_agrees (partial : bool) (instance : Booking.t) (d : data) :
  BookingUpdateRequest.save partial BookingUpdateRequest.accept instance
    (BookingUpdateRequest.body_of d)
  = match submit instance d with
    | inl e => inl e
    | inr b' => inr (BookingUpdateRequest.attributes b')
    end.
Proof.
  rewrite submit_cases.
  unfold BookingUpdateRequest.save, Serializer.to_internal_value,
    BookingUpdateRequest.get_fields, BookingUpdateRequest.Meta_fields,
    BookingUpdateRequest.body_of.
  destruct d as [[s|] [n|]]; simpl;
    unfold Serializer.field_step, Serializer.run_field; simpl;
    rewrite ?lookup_insert_eq, ?lookup_empty;
    rewrite ?lookup_insert_ne by done;
    rewrite ?lookup_insert_eq, ?lookup_empty; simpl;
    unfold BookingUpdateRequest.accept; simpl;
    rewrite ?validate_status_cases;
    repeat case_decide; simpl; try reflexivity;
    destruct partial; simpl; try reflexivity;
    unfold ret, BookingUpdateRequest.update, BookingUpdateRequest.attributes,
      update; simpl; f_equal;
    apply map_eq; intros k;
    rewrite ?lookup_union, ?lookup_insert, ?lookup_empty;
    repeat case_decide; subst; simpl; try done;
    repeat (rewrite ?lookup_insert, ?lookup_empty; repeat case_decide; subst;
            simpl; try done);
    by destruct (Booking.special_requests instance).
Qed.


Example note_on_cancelled_booking :
  ∃ b', submit
          (update first_week
             {| status := Some "cancelled"; special_requests := None |})
          late_arrival = inr b'
        ∧ Booking.status b' = "cancelled"
        ∧ Booking.special_requests b' = Some "Late arrival".
Proof. eexists. repeat split; vm_compute; reflexivity. Qed.

End Updates.

(** ** No double booking *)

Lemma update_keeps_active (instance : Booking.t)
    (d : BookingUpdateSerializer.data) (b' : Booking.t) :
  BookingUpdateSerializer.submit instance d = inr b' →
  active b' → active instance.
Proof.
  rewrite submit_cases. unfold active.
  destruct (BookingUpdateSerializer.status d) as [value|] eqn:Hs.
  - case_decide as Hp; [|discriminate]. intros [= <-]. simpl. rewrite Hs.
    unfold permitted in Hp. intros [-> | ->];
      destruct_or?; destruct_and?; try discriminate; auto.
  - intros [= <-]. simpl. by rewrite Hs.
Qed.

Lemma submit_create_inv (db : DB) (today : Z) (request_user : N)
    (d : BookingCreateSerializer.data) (b : Booking.t) :
  BookingCreateSerializer.submit db today request_user d = inr b →
  Booking.listing b = BookingCreateSerializer.listing_id d
  ∧ Booking.check_in_date b = BookingCreateSerializer.check_in_date d
  ∧ Booking.check_out_date b = BookingCreateSerializer.check_out_date d
  ∧ ¬ map_Exists (λ _ b0, conflicting d b0) (bookings db).
Proof.
  unfold BookingCreateSerializer.submit.
  destruct (BookingCreateSerializer.run_validation db today d)
    as [e|vd] eqn:Hrun; [discriminate|].
  destruct (run_validation_accepted db today d vd Hrun)
    as (-> & _ & l & Hl & Hc).
  unfold bind, BookingCreateSerializer.create, Listing_objects_get.
  rewrite Hl. unfold bind, ret. cbv zeta. intros [= <-]. simpl.
  repeat split.
  unfold first_cross_field_error in Hc.
  repeat (case_decide; try discriminate). done.
Qed.

Lemma step_preserves_no_double_booking (db db' : DB) :
  step db db' → no_double_booking db → no_double_booking db'.
Proof.
  intros Hstep Hinv. destruct Hstep as
    [db today request_user d pk b Hsub Hfresh | db pk instance d b' Hpk Hsub].
  - apply submit_create_inv in Hsub as (Hl & Hci & Hco & Hfree).
    intros i j x y Hij Hi Hj Hsame Hx Hy. simpl in Hi, Hj.
    apply lookup_insert_Some in Hi as [[<- <-]|[Hne Hi]];
      apply lookup_insert_Some in Hj as [[Hj <-]|[Hne' Hj]].
    + congruence.
    + intros [Hlt Hgt]. apply Hfree. exists j, y. split; [done|].
      unfold conflicting, overlaps. split; [congruence|]. split; [done|]. lia.
    + intros [Hlt Hgt]. apply Hfree. exists i, x. split; [done|].
      unfold conflicting, overlaps. split; [congruence|]. split; [done|]. lia.
    + by apply (Hinv i j x y).
  - pose proof (update_keeps_active instance d b' Hsub) as Hact.
    apply submit_update_inv in Hsub as ->.
    set (b' := BookingUpdateSerializer.update instance d) in *.
    assert (Booking.listing b' = Booking.listing instance) as Hl by done.
    assert (Booking.check_in_date b' = Booking.check_in_date instance)
      as Hci by done.
    assert (Booking.check_out_date b' = Booking.check_out_date instance)
      as Hco by done.
    intros i j x y Hij Hi Hj Hsame Hx Hy. simpl in Hi, Hj.
    apply lookup_insert_Some in Hi as [[<- <-]|[Hne Hi]];
      apply lookup_insert_Some in Hj as [[Hj <-]|[Hne' Hj]].
    + congruence.
    + rewrite Hci, Hco. apply (Hinv pk j instance y); auto; congruence.
    + rewrite Hci, Hco. apply (Hinv i pk x instance); auto; congruence.
    + by apply (Hinv i j x y).
Qed.

(** C4.  In every state reached from a database without bookings by
    admitted booking requests and validated updates, run one after another,
    no two distinct bookings of one listing that are both pending or
    confirmed have overlapping date ranges. *)
Theorem C4_no_double_booking (db : DB) :
  reachable db → no_double_booking db.
Proof.
  induction 1 as [ls | db db' _ IH Hstep].
  - intros i j a b _ Hi. simpl in Hi. by rewrite lookup_empty in Hi.
  - by apply (step_preserves_no_double_booking db db').
Qed.

Lemma reachable_db_after_second : reachable db_after_second.
Proof.
  apply (reachable_step db_after_confirm).
  - apply (reachable_step db_after_create).
    + apply (reachable_step empty_db).
      * apply (reachable_init sample_listings).
      * apply (step_create empty_db may_1 8%N back_to_back 11%N second_week);
          vm_compute; reflexivity.
    + apply (step_update db_after_create 11%N second_week confirm);
        vm_compute; reflexivity.
  - apply (step_create db_after_confirm may_1 9%N following_request 12%N
             third_week); vm_compute; reflexivity.
Qed.

Lemma C4_witness :
  reachable db_after_second ∧ no_double_booking db_after_second.
Proof.
  split; [exact reachable_db_after_second|].
  apply (C4_no_double_booking db_after_second).
  exact reachable_db_after_second.
Defined.

(** * Further properties of the booking serializers *)

Section AdmissionLaws.
Import BookingCreateSerializer.

(** The row that [create] builds from validated data on listing [l]. *)
Lemma submit_cases_create (db : DB) (today : Z) (request_user : N) (d : data)
    (b : Booking.t) :
  submit db today request_user d = inr b
  ↔ ∃ l, listings db !! listing_id d = Some l
       ∧ field_level_errors db today d = []
       ∧ first_cross_field_error db l d = None
       ∧ b = {| Booking.listing := listing_id d;
                Booking.user := request_user;
                Booking.check_in_date := check_in_date d;
                Booking.check_out_date := check_out_date d;
                Booking.guests := guests d;
                Booking.total_price := Listing.price_per_night l * nights d;
                Booking.status := Booking_status_default;
                Booking.special_requests := special_requests d |}.
Proof.
  unfold submit. split.
  - destruct (run_validation db today d) as [e|vd] eqn:Hrun; [discriminate|].
    destruct (run_validation_accepted db today d vd Hrun)
      as (-> & Hf & l & Hl & Hc).
    unfold bind, create, Listing_objects_get. rewrite Hl.
    unfold bind, ret. cbv zeta. intros [= <-].
    exists l. repeat split; try done. by apply to_internal_value_passes.
  - intros (l & Hl & Hf & Hc & ->).
    apply to_internal_value_passes in Hf.
    rewrite (run_validation_after_fields db today d l Hf Hl), Hc.
    unfold bind, create, Listing_objects_get. rewrite Hl. reflexivity.
Qed.

Lemma first_cross_field_error_none (db : DB) (l : Listing.t) (d : data) :
  first_cross_field_error db l d = None
  ↔ check_in_date d < check_out_date d
    ∧ guests d ≤ Listing.max_guests l
    ∧ Listing.minimum_stay l ≤ nights d
    ∧ ¬ stay_too_long l d
    ∧ ¬ map_Exists (λ _ b, conflicting d b) (bookings db).
Proof.
  unfold first_cross_field_error.
  repeat case_decide; split; intros; destruct_and?;
    try discriminate; try lia; try tauto; repeat split; try lia; auto.
Qed.

Lemma stay_too_long_bound (l : Listing.t) (d : data) :
  ¬ stay_too_long l d
  ↔ ∀ m, Listing.maximum_stay l = Some m → m ≠ 0 → nights d ≤ m.
Proof.
  unfold stay_too_long. destruct (Listing.maximum_stay l) as [m|].
  - split.
    + intros H m' [= <-] Hm. lia.
    + intros H [Hm Hgt]. specialize (H m eq_refl Hm). lia.
  - split; [intros _ m' Hm'; discriminate | tauto].
Qed.

Lemma run_validation_outcomes (db : DB) (today : Z) (d : data) :
  (∃ e errs, run_validation db today d
             = inl (ValidationError (FieldErrors (e :: errs)))
           ∧ field_level_errors db today d = e :: errs)
  ∨ (field_level_errors db today d = []
     ∧ ∃ l, listings db !! listing_id d = Some l
          ∧ run_validation db today d =
              match first_cross_field_error db l d with
              | Some e => rejected e
              | None => inr d
              end).
Proof.
  destruct (field_level_errors db today d) as [|e errs] eqn:Hf.
  - right. split; [reflexivity|].
    apply field_level_errors_nil in Hf as Hf'. destruct Hf' as (Hb & _).
    apply bookable_lookup in Hb as [l Hl]. exists l. split; [done|].
    apply run_validation_after_fields; [|done].
    by apply to_internal_value_passes.
  - left. exists e, errs. split; [|reflexivity].
    unfold run_validation. by rewrite to_internal_value_cases, Hf.
Qed.

(** X1.  Every admitted booking meets the rules of its listing: the listing
    is published and available, the stay starts after today and lasts at
    least one night, the guest count lies between one and the capacity, the
    length lies within the stay bounds in force, the row belongs to the
    requester, and no pending or confirmed booking of the listing overlaps
    it. *)
Theorem admitted_booking_is_sound (db : DB) (today : Z) (request_user : N)
    (d : data) (b : Booking.t) :
  submit db today request_user d = inr b →
  ∃ l, listings db !! Booking.listing b = Some l
     ∧ Listing.status l = "published"
     ∧ Listing.is_available l = true
     ∧ Booking.user b = request_user
     ∧ today < Booking.check_in_date b
     ∧ Booking.check_in_date b < Booking.check_out_date b
     ∧ today + 2 ≤ Booking.check_out_date b
     ∧ 1 ≤ Booking.guests b ≤ Listing.max_guests l
     ∧ Listing.minimum_stay l
       ≤ Booking.check_out_date b - Booking.check_in_date b
     ∧ (∀ m, Listing.maximum_stay l = Some m → m ≠ 0 →
          Booking.check_out_date b - Booking.check_in_date b ≤ m)
     ∧ ∀ pk b0, bookings db !! pk = Some b0 →
         Booking.listing b0 = Booking.listing b → active b0 →
         ¬ (Booking.check_in_date b0 < Booking.check_out_date b
            ∧ Booking.check_out_date b0 > Booking.check_in_date b).
Proof.
  intros Hsub. apply submit_cases_create in Hsub as (l & Hl & Hf & Hc & ->).
  apply field_level_errors_nil in Hf as (Hb & Hci & Hco & Hg).
  apply first_cross_field_error_none in Hc as (H3 & H4 & H5 & H6 & H7).
  unfold bookable in Hb. rewrite Hl in Hb. destruct Hb as [Hpub Hav].
  exists l. simpl. repeat split; try done; try lia.
  - by apply stay_too_long_bound.
  - intros pk b0 Hb0 Hsame Hact [Hlt Hgt]. apply H7.
    exists pk, b0. unfold conflicting, overlaps. auto.
Qed.

Lemma admitted_booking_is_sound_witness :
  submit sample_db may_1 8%N back_to_back = inr second_week
  ∧ ∃ l, listings sample_db !! Booking.listing second_week = Some l
       ∧ Listing.status l = "published"
       ∧ 1 ≤ Booking.guests second_week ≤ Listing.max_guests l.
Proof.
  split; [vm_compute; reflexivity|].
  destruct (admitted_booking_is_sound sample_db may_1 8%N back_to_back
              second_week) as (l & Hl & Hp & _ & _ & _ & _ & _ & Hg & _).
  - vm_compute; reflexivity.
  - exists l. auto.
Defined.



(** X3.  Validation never ends in [DoesNotExist]: whatever the database
    and the request, [is_valid()] either accepts or reports validation
    errors, and a request that validates is always turned into a row. *)
Theorem validation_never_raises_DoesNotExist (db : DB) (today : Z)
    (request_user : N) (d : data) :
  run_validation db today d ≠ inl DoesNotExist
  ∧ submit db today request_user d ≠ inl DoesNotExist.
Proof.
  assert (run_validation db today d ≠ inl DoesNotExist) as Hrun.
  { destruct (run_validation_outcomes db today d)
      as [(e & errs & -> & _) | (_ & l & _ & ->)]; [discriminate|].
    destruct (first_cross_field_error db l d); discriminate. }
  split; [done|]. unfold submit.
  destruct (run_validation db today d) as [e|vd] eqn:Hr.
  - simpl. congruence.
  - destruct (run_validation_accepted db today d vd Hr)
      as (-> & _ & l & Hl & _).
    unfold bind, create, Listing_objects_get. rewrite Hl. discriminate.
Qed.

(** X4.  For a listing that is not in the table, [is_valid()] reports the
    listing error under [listing_id].  Called on their own, [validate] tests
    the date order before it looks the listing up, so it reports a wrong
    date order and otherwise lets [DoesNotExist] escape, and [create] lets
    [DoesNotExist] escape. *)
Theorem missing_listing_behaviour (db : DB) (today : Z) (request_user : N)
    (d : data) :
  listings db !! listing_id d = None →
  InvalidListing ∈ reported_errors (run_validation db today d)
  ∧ validate db d =
      (if check_out_date d <=? check_in_date d
       then raise (ValidationError (FieldErrors [InvalidDateRange]))
       else raise DoesNotExist)
  ∧ create db request_user d = raise DoesNotExist.
Proof.
  intros Hnone. split; [|split].
  - unfold run_validation. rewrite to_internal_value_cases.
    assert (InvalidListing ∈ field_level_errors db today d) as Hin.
    { unfold field_level_errors. rewrite elem_of_app. left.
      case_decide as Hb; [|left].
      unfold bookable in Hb. by rewrite Hnone in Hb. }
    destruct (field_level_errors db today d); [by apply elem_of_nil in Hin|].
    exact Hin.
  - unfold validate, Listing_objects_get. rewrite Hnone.
    by destruct (check_out_date d <=? check_in_date d).
  - unfold create, Listing_objects_get. by rewrite Hnone.
Qed.

Lemma missing_listing_behaviour_witness :
  listings empty_db !! listing_id stale_request = None
  ∧ validate empty_db stale_request = raise DoesNotExist.
Proof.
  split; [vm_compute; reflexivity|].
  refine (proj1 (proj2
    (missing_listing_behaviour empty_db may_1 8%N stale_request _))).
  vm_compute; reflexivity.
Defined.

Lemma field_level_errors_same_listings (db db' : DB) (today : Z) (d : data) :
  listings db = listings db' →
  field_level_errors db today d = field_level_errors db' today d.
Proof.
  intros Heq. unfold field_level_errors.
  assert (bookable db (listing_id d) ↔ bookable db' (listing_id d)) as Hb.
  { unfold bookable. by rewrite Heq. }
  destruct (decide (bookable db (listing_id d)));
    destruct (decide (bookable db' (listing_id d))); tauto.
Qed.

Lemma first_cross_field_error_same_conflicts (db db' : DB) (l : Listing.t)
    (d : data) :
  (map_Exists (λ _ b, conflicting d b) (bookings db)
   ↔ map_Exists (λ _ b, conflicting d b) (bookings db')) →
  first_cross_field_error db l d = first_cross_field_error db' l d.
Proof.
  intros Hc. unfold first_cross_field_error.
  repeat (case_decide; try reflexivity); tauto.
Qed.

Lemma run_validation_same_conflicts (db db' : DB) (today : Z) (d : data) :
  listings db = listings db' →
  (map_Exists (λ _ b, conflicting d b) (bookings db)
   ↔ map_Exists (λ _ b, conflicting d b) (bookings db')) →
  run_validation db today d = run_validation db' today d.
Proof.
  intros Hl Hc.
  pose proof (field_level_errors_same_listings db db' today d Hl) as Hf.
  destruct (run_validation_outcomes db today d)
    as [(e & errs & -> & He) | (Hnil & l & Hlk & ->)];
  destruct (run_validation_outcomes db' today d)
    as [(e' & errs' & -> & He') | (Hnil' & l' & Hlk' & ->)];
  try congruence.
  rewrite Hl, Hlk' in Hlk. injection Hlk as <-.
  by rewrite (first_cross_field_error_same_conflicts db db' l' d Hc).
Qed.

(** X5.  A new booking that is on another listing, or is neither pending nor
    confirmed, or does not overlap the requested range, changes nothing in
    the validation of the request. *)
Theorem unrelated_booking_does_not_matter (db : DB) (today : Z) (d : data)
    (pk : N) (b : Booking.t) :
  bookings db !! pk = None →
  Booking.listing b ≠ listing_id d
  ∨ ¬ active b
  ∨ Booking.check_out_date b ≤ check_in_date d
  ∨ check_out_date d ≤ Booking.check_in_date b →
  run_validation (Booking_objects_create pk b db) today d
  = run_validation db today d.
Proof.
  intros Hfresh Hun. apply run_validation_same_conflicts; [reflexivity|].
  assert (¬ conflicting d b) as Hnc.
  { unfold conflicting, overlaps. intros (? & ? & ? & ?).
    destruct Hun as [?|[?|[?|?]]]; try tauto; lia. }
  simpl. split.
  - intros (pk' & b0 & Hb0 & Hc0).
    apply lookup_insert_Some in Hb0 as [[_ <-]|[_ Hb0]]; [tauto|].
    by exists pk', b0.
  - intros (pk' & b0 & Hb0 & Hc0). exists pk', b0. split; [|done].
    apply lookup_insert_Some. right. split; [|done]. congruence.
Qed.

Lemma unrelated_booking_does_not_matter_witness :
  bookings sample_db !! 12%N = None
  ∧ run_validation (Booking_objects_create 12%N third_week sample_db)
      may_1 one_day_early
    = run_validation sample_db may_1 one_day_early.
Proof.
  split; [vm_compute; reflexivity|].
  apply (unrelated_booking_does_not_matter sample_db may_1 one_day_early
           12%N third_week).
  - vm_compute; reflexivity.
  - do 3 right. vm_compute; discriminate.
Defined.

Lemma first_cross_field_error_overlap (db : DB) (l : Listing.t) (d : data) :
  first_cross_field_error db l d = Some DateRangeUnavailable
  ↔ check_in_date d < check_out_date d
    ∧ guests d ≤ Listing.max_guests l
    ∧ Listing.minimum_stay l ≤ nights d
    ∧ ¬ stay_too_long l d
    ∧ map_Exists (λ _ b, conflicting d b) (bookings db).
Proof.
  unfold first_cross_field_error.
  repeat case_decide; split; intros; destruct_and?;
    try discriminate; try lia; try tauto; repeat split; try lia; auto.
Qed.

Lemma overlap_rejection_iff (db : DB) (today : Z) (d : data) :
  run_validation db today d = rejected DateRangeUnavailable
  ↔ field_level_errors db today d = []
    ∧ ∃ l, listings db !! listing_id d = Some l
         ∧ first_cross_field_error db l d = Some DateRangeUnavailable.
Proof.
  destruct (run_validation_outcomes db today d)
    as [(e & errs & -> & He) | (Hnil & l & Hl & ->)].
  - split.
    + unfold rejected. intros [= -> ->]. exfalso. revert He.
      unfold field_level_errors. repeat case_decide; discriminate.
    + intros [Hnil _]. congruence.
  - split.
    + intros Hr. split; [done|]. exists l. split; [done|].
      destruct (first_cross_field_error db l d) as [e|]; [|discriminate].
      apply rejected_inj in Hr. by subst.
    + intros (_ & l' & Hl' & Hc). rewrite Hl in Hl'. injection Hl' as <-.
      by rewrite Hc.
Qed.

(** X6.  Cancelling or completing the only booking that stands in the way
    frees its dates: a request that was refused for unavailable dates is
    admitted once that booking has left the pending and confirmed states. *)
Theorem ending_a_booking_frees_its_dates (db : DB) (today : Z) (d : data)
    (pk : N) (instance : Booking.t) (value : string) (note : option string)
    (b' : Booking.t) :
  bookings db !! pk = Some instance →
  value = "cancelled" ∨ value = "completed" →
  BookingUpdateSerializer.submit instance
    {| BookingUpdateSerializer.status := Some value;
       BookingUpdateSerializer.special_requests := note |} = inr b' →
  run_validation db today d = rejected DateRangeUnavailable →
  (∀ pk' b0, bookings db !! pk' = Some b0 → conflicting d b0 → pk' = pk) →
  run_validation (Booking_save pk b' db) today d = inr d.
Proof.
  intros Hpk Hval Hsub Hrej Honly.
  apply submit_update_inv in Hsub as ->.
  apply overlap_rejection_iff in Hrej as (Hnil & l & Hl & Hc).
  apply first_cross_field_error_overlap in Hc as (H3 & H4 & H5 & H6 & _).
  set (db' := Booking_save pk _ db).
  assert (field_level_errors db' today d = []) as Hnil'.
  { by rewrite <- (field_level_errors_same_listings db db' today d). }
  apply to_internal_value_passes in Hnil'.
  rewrite (run_validation_after_fields db' today d l Hnil' Hl).
  replace (first_cross_field_error db' l d) with (@None (string * string));
    [reflexivity|].
  symmetry. apply first_cross_field_error_none. repeat split; try done.
  intros (pk' & b0 & Hb0 & Hc0). simpl in Hb0.
  apply lookup_insert_Some in Hb0 as [[<- <-]|[Hne Hb0]].
  - destruct Hc0 as (_ & Hact & _). unfold active in Hact. simpl in Hact.
    destruct Hval as [-> | ->]; destruct Hact; discriminate.
  - apply Hne. symmetry. by apply (Honly pk' b0).
Qed.

Lemma ending_a_booking_frees_its_dates_witness :
  run_validation sample_db may_1 one_day_early
    = rejected DateRangeUnavailable
  ∧ run_validation
      (Booking_save 10%N
         (BookingUpdateSerializer.update first_week
            {| BookingUpdateSerializer.status := Some "cancelled";
               BookingUpdateSerializer.special_requests := None |})
         sample_db)
      may_1 one_day_early
    = inr one_day_early.
Proof.
  split; [vm_compute; reflexivity|].
  apply (ending_a_booking_frees_its_dates sample_db may_1 one_day_early
           10%N first_week "cancelled" None).
  - vm_compute; reflexivity.
  - by left.
  - vm_compute; reflexivity.
  - vm_compute; reflexivity.
  - intros pk' b0 Hb0 _. unfold sample_db in Hb0. simpl in Hb0.
    apply lookup_insert_Some in Hb0 as [[<- _]|[_ Hb0]]; [reflexivity|].
    by rewrite lookup_empty in Hb0.
Defined.

(** X7.  Once a request has been admitted and stored, the overlap query of a
    later request finds a booking exactly when it found one before or the
    later request is for the same listing and overlaps the admitted stay.
    The row is created with the default status, pending, which the query
    counts. *)
Theorem admitted_booking_blocks_its_dates (db : DB) (today : Z)
    (request_user : N) (d : data) (b : Booking.t) (pk : N) (d' : data) :
  submit db today request_user d = inr b →
  bookings db !! pk = None →
  qs_exists (overlapping_bookings (Booking_objects_create pk b db) d') = true
  ↔ qs_exists (overlapping_bookings db d') = true
    ∨ (listing_id d' = listing_id d
       ∧ check_in_date d < check_out_date d'
       ∧ check_out_date d > check_in_date d').
Proof.
  intros Hsub Hfresh.
  apply submit_cases_create in Hsub as (l & _ & _ & _ & ->).
  rewrite !overlapping_exists. simpl. split.
  - intros (pk' & b0 & Hb0 & Hc0).
    apply lookup_insert_Some in Hb0 as [[_ <-]|[_ Hb0]].
    + right. destruct Hc0 as (Hl & _ & Hlt & Hgt). simpl in *. auto.
    + left. by exists pk', b0.
  - intros [(pk' & b0 & Hb0 & Hc0) | (Hl & Hlt & Hgt)].
    + exists pk', b0. split; [|done]. apply lookup_insert_Some.
      right. split; [congruence | done].
    + eexists pk, _. split; [apply lookup_insert_eq|].
      unfold conflicting, active, overlaps. simpl. auto.
Qed.

Lemma admitted_booking_blocks_its_dates_witness :
  submit empty_db may_1 8%N back_to_back = inr second_week
  ∧ (qs_exists (overlapping_bookings db_after_create following_request) = true
     ↔ qs_exists (overlapping_bookings empty_db following_request) = true
       ∨ (listing_id following_request = listing_id back_to_back
          ∧ check_in_date back_to_back < check_out_date following_request
          ∧ check_out_date back_to_back > check_in_date following_request)).
Proof.
  split; [vm_compute; reflexivity|].
  apply (admitted_booking_blocks_its_dates empty_db may_1 8%N back_to_back
           second_week 11%N following_request).
  - vm_compute; reflexivity.
  - vm_compute; reflexivity.
Defined.

(** X8.  A request cannot be admitted twice: once it has been admitted and
    stored, sending the same request again, on any day before its check-in,
    is refused for unavailable dates. *)
Theorem duplicate_request_is_rejected (db : DB) (today : Z)
    (request_user : N) (d : data) (b : Booking.t) (pk : N) (today' : Z) :
  submit db today request_user d = inr b →
  bookings db !! pk = None →
  today' < check_in_date d →
  run_validation (Booking_objects_create pk b db) today' d
  = rejected DateRangeUnavailable.
Proof.
  intros Hsub Hfresh Hlater.
  apply submit_cases_create in Hsub as (l & Hl & Hf & Hc & ->).
  apply field_level_errors_nil in Hf as (Hb & Hci & Hco & Hg).
  apply first_cross_field_error_none in Hc as (H3 & H4 & H5 & H6 & _).
  apply overlap_rejection_iff. split.
  - apply field_level_errors_nil. repeat split; try done; lia.
  - exists l. split; [done|]. apply first_cross_field_error_overlap.
    repeat split; try done.
    eexists pk, _. split; [apply lookup_insert_eq|].
    unfold conflicting, active, overlaps. simpl. repeat split; auto; lia.
Qed.

Lemma duplicate_request_is_rejected_witness :
  submit empty_db may_1 8%N back_to_back = inr second_week
  ∧ run_validation db_after_create (may_1 + 7) back_to_back
    = rejected DateRangeUnavailable.
Proof.
  split; [vm_compute; reflexivity|].
  apply (duplicate_request_is_rejected empty_db may_1 8%N back_to_back
           second_week 11%N (may_1 + 7)).
  - vm_compute; reflexivity.
  - vm_compute; reflexivity.
  - vm_compute; reflexivity.
Defined.

(** X9.  With a nightly price that is not negative, the total price of an
    admitted booking is at least one nightly price, at least the price of
    the minimum stay, and at most the price of the maximum stay in force. *)
Theorem total_price_bounds (db : DB) (today : Z) (request_user : N)
    (d : data) (b : Booking.t) (l : Listing.t) :
  submit db today request_user d = inr b →
  listings db !! Booking.listing b = Some l →
  0 ≤ Listing.price_per_night l →
  Listing.price_per_night l ≤ Booking.total_price b
  ∧ Listing.price_per_night l * Listing.minimum_stay l ≤ Booking.total_price b
  ∧ ∀ m, Listing.maximum_stay l = Some m → m ≠ 0 →
      Booking.total_price b ≤ Listing.price_per_night l * m.
Proof.
  intros Hsub Hl Hp.
  apply submit_cases_create in Hsub as (l' & Hl' & _ & Hc & ->).
  simpl in *. rewrite Hl' in Hl. injection Hl as ->.
  apply first_cross_field_error_none in Hc as (H3 & _ & H5 & H6 & _).
  assert (1 ≤ nights d) as Hn by (unfold nights; lia).
  split; [nia|]. split; [nia|].
  intros m Hm Hm0. apply stay_too_long_bound with (m := m) in H6; try done.
  nia.
Qed.

Lemma total_price_bounds_witness :
  submit sample_db may_1 8%N back_to_back = inr second_week
  ∧ Listing.price_per_night villa * Listing.minimum_stay villa
    ≤ Booking.total_price second_week.
Proof.
  split; [vm_compute; reflexivity|].
  refine (proj1 (proj2
    (total_price_bounds sample_db may_1 8%N back_to_back second_week villa
       _ _ _))).
  - vm_compute; reflexivity.
  - vm_compute; reflexivity.
  - vm_compute; discriminate.
Defined.

End AdmissionLaws.

Section LifecycleLaws.
Import BookingUpdateSerializer.

Lemma submit_status_inv (instance : Booking.t) (value : string)
    (note : option string) (b' : Booking.t) :
  submit instance {| status := Some value; special_requests := note |}
    = inr b' →
  permitted (Booking.status instance) value ∧ Booking.status b' = value.
Proof.
  rewrite submit_cases. simpl. case_decide; [|discriminate].
  intros [= <-]. done.
Qed.

(** X10.  A booking changes status at most twice: after two accepted status
    changes it is cancelled or completed, and every further status change is
    refused. *)
Theorem at_most_two_status_changes (b0 b1 b2 : Booking.t)
    (s1 s2 s3 : string) (n1 n2 n3 : option string) :
  submit b0 {| status := Some s1; special_requests := n1 |} = inr b1 →
  submit b1 {| status := Some s2; special_requests := n2 |} = inr b2 →
  (Booking.status b2 = "cancelled" ∨ Booking.status b2 = "completed")
  ∧ submit b2 {| status := Some s3; special_requests := n3 |}
    = inl (ValidationError (FieldErrors
        [("status", IllegalTransition (Booking.status b2) s3)])).
Proof.
  intros H1 H2.
  apply submit_status_inv in H1 as [Hp1 Hs1].
  apply submit_status_inv in H2 as [Hp2 Hs2].
  rewrite Hs1 in Hp2.
  assert (Booking.status b2 = "cancelled" ∨ Booking.status b2 = "completed")
    as Hterm.
  { rewrite Hs2. unfold permitted in *.
    destruct_or?; destruct_and?; subst; try discriminate; auto. }
  split; [done|]. rewrite submit_cases. simpl.
  case_decide as Hp3; [|reflexivity].
  unfold permitted in Hp3. destruct Hterm as [Ht|Ht]; rewrite Ht in Hp3;
    destruct_or?; destruct_and?; discriminate.
Qed.

Lemma at_most_two_status_changes_witness :
  submit second_week confirm = inr (update second_week confirm)
  ∧ submit (update (update second_week confirm)
              {| status := Some "completed"; special_requests := None |})
      {| status := Some "cancelled"; special_requests := None |}
    = inl (ValidationError (FieldErrors
        [("status", IllegalTransition "completed" "cancelled")])).
Proof.
  split; [vm_compute; reflexivity|].
  refine (proj2 (at_most_two_status_changes second_week
    (update second_week confirm)
    (update (update second_week confirm)
       {| status := Some "completed"; special_requests := None |})
    "confirmed" "completed" "cancelled" None None None _ _)).
  - vm_compute; reflexivity.
  - vm_compute; reflexivity.
Defined.

(** X11.  An accepted status change never repeats the current status, never
    leads to pending, and starts from pending or confirmed only; a booking
    whose stored status is any other string accepts no change. *)
Theorem accepted_status_change_moves_forward (instance : Booking.t)
    (value v : string) :
  validate_status instance value = inr v →
  v = value
  ∧ value ≠ Booking.status instance
  ∧ value ≠ "pending"
  ∧ (Booking.status instance = "pending"
     ∨ Booking.status instance = "confirmed")
  ∧ (value = "confirmed" ∨ value = "cancelled" ∨ value = "completed").
Proof.
  rewrite validate_status_cases. case_decide as Hp; [|discriminate].
  intros [= <-]. unfold permitted in Hp.
  destruct Hp as [[H1 H2]|[[H1 H2]|[[H1 H2]|[H1 H2]]]]; rewrite H1, H2;
    repeat split; try discriminate; auto.
Qed.

Lemma accepted_status_change_moves_forward_witness :
  validate_status second_week "confirmed" = inr "confirmed"
  ∧ "confirmed" ≠ Booking.status second_week.
Proof.
  split; [vm_compute; reflexivity|].
  refine (proj1 (proj2 (accepted_status_change_moves_forward second_week
    "confirmed" "confirmed" _))).
  vm_compute; reflexivity.
Defined.

End LifecycleLaws.

(** * Properties of the listing serializers *)

Section ListingWriteLaws.
Import ListingCreateUpdateSerializer.

(** X12.  The stay-bounds check of the listing write serializer rejects a
    body exactly when it holds both a maximum and a minimum stay, neither of
    them zero, and the maximum is below the minimum; the error is reported
    under [maximum_stay].  Every other body is returned as it is. *)
Theorem listing_stay_bounds_check (attrs : data) :
  (validate attrs = inl (ValidationError (FieldErrors [MaximumBelowMinimum]))
   ↔ ∃ mx mn, maximum_stay attrs = Some (Some mx)
            ∧ minimum_stay attrs = Some mn
            ∧ mx ≠ 0 ∧ mn ≠ 0 ∧ mx < mn)
  ∧ (validate attrs = inr attrs
     ∨ validate attrs
       = inl (ValidationError (FieldErrors [MaximumBelowMinimum]))).
Proof.
  unfold validate, get_maximum_stay, truthy, MaximumBelowMinimum.
  destruct (maximum_stay attrs) as [[mx|]|]; simpl;
    destruct (minimum_stay attrs) as [mn|]; simpl;
    try (split; [split; [discriminate | intros (? & ? & ? & ? & _);
                                         congruence]
                | by left]).
  - destruct (Z.eqb_spec mx 0) as [->|Hmx]; simpl.
    + split; [|by left]. split; [discriminate|].
      intros (? & ? & [= <-] & _ & ? & _). done.
    + destruct (Z.eqb_spec mn 0) as [->|Hmn]; simpl.
      * split; [|by left]. split; [discriminate|].
        intros (? & ? & _ & [= <-] & _ & ? & _). done.
      * destruct (Z.ltb_spec mx mn).
        -- split; [|by right]. split; [|done].
           intros _. exists mx, mn. done.
        -- split; [|by left]. split; [discriminate|].
           intros (? & ? & [= <-] & [= <-] & _ & _ & ?). lia.
  - destruct (Z.eqb_spec mx 0); simpl;
      (split; [split; [discriminate | intros (? & ? & _ & ? & _); congruence]
              | by left]).
Qed.

Lemma listing_stay_bounds_check_iff (attrs : data) :
  validate attrs = inl (ValidationError (FieldErrors [MaximumBelowMinimum]))
  ↔ ∃ mx mn, maximum_stay attrs = Some (Some mx)
           ∧ minimum_stay attrs = Some mn
           ∧ mx ≠ 0 ∧ mn ≠ 0 ∧ mx < mn.
Proof.
  unfold validate, get_maximum_stay, truthy, MaximumBelowMinimum.
  destruct (maximum_stay attrs) as [[mx|]|]; simpl;
    destruct (minimum_stay attrs) as [mn|]; simpl;
    try (split; [discriminate | intros (? & ? & ? & ? & _); congruence]).
  - destruct (Z.eqb_spec mx 0) as [->|Hmx]; simpl.
    + split; [discriminate|]. intros (? & ? & [= <-] & _ & ? & _). done.
    + destruct (Z.eqb_spec mn 0) as [->|Hmn]; simpl.
      * split; [discriminate|].
        intros (? & ? & _ & [= <-] & _ & ? & _). done.
      * destruct (Z.ltb_spec mx mn).
        -- split; [|done]. intros _. exists mx, mn. done.
        -- split; [discriminate|].
           intros (? & ? & [= <-] & [= <-] & _ & _ & ?). lia.
  - destruct (Z.eqb_spec mx 0); simpl;
      (split; [discriminate | intros (? & ? & _ & ? & _); congruence]).
Qed.

Lemma listing_write_validate_outcomes (attrs : data) :
  validate attrs = inr attrs
  ∨ validate attrs = inl (ValidationError (FieldErrors [MaximumBelowMinimum])).
Proof.
  unfold validate, MaximumBelowMinimum.
  destruct (truthy (get_maximum_stay attrs) && truthy (minimum_stay attrs));
    [|by left].
  destruct (get_maximum_stay attrs), (minimum_stay attrs); try by left.
  destruct (_ <? _); [by right | by left].
Qed.

Lemma validate_without_minimum (attrs : data) :
  minimum_stay attrs = None → validate attrs = inr attrs.
Proof.
  intros Hmn. unfold validate. rewrite Hmn. simpl.
  by rewrite andb_false_r.
Qed.

(** X13.  When the validated data of a partial update hold the maximum stay
    and no other key, that is a value the field itself has accepted,
    [validate] does not compare it with the stored minimum stay: it returns
    the data as they are, and [update] stores the new maximum and keeps the
    minimum stay and the host, even when the new maximum is below the
    minimum. *)
Theorem maximum_stay_alone_is_not_checked (cat : Catalog)
    (instance : ListingRow.t) (mx : option Z) :
  validate (only_maximum_stay mx) = inr (only_maximum_stay mx)
  ∧ ∃ row, update cat instance (only_maximum_stay mx) = inr row
      ∧ Listing.maximum_stay (ListingRow.columns row) = mx
      ∧ Listing.minimum_stay (ListingRow.columns row)
        = Listing.minimum_stay (ListingRow.columns instance)
      ∧ ListingRow.host row = ListingRow.host instance.
Proof.
  split; [by apply validate_without_minimum|].
  eexists. split.
  - unfold update. simpl. reflexivity.
  - done.
Qed.

End ListingWriteLaws.

Section StayWindow.
Import BookingCreateSerializer.

(** X14.  A listing whose maximum stay is not zero and lies below its
    minimum stay cannot be booked: no request for it validates, whatever
    its dates. *)
Theorem maximum_below_minimum_is_unbookable (db : DB) (today : Z)
    (request_user : N) (d : data) (l : Listing.t) (mx : Z) :
  listings db !! listing_id d = Some l →
  Listing.maximum_stay l = Some mx →
  mx ≠ 0 →
  mx < Listing.minimum_stay l →
  (∀ vd, run_validation db today d ≠ inr vd)
  ∧ (∀ b, submit db today request_user d ≠ inr b).
Proof.
  intros Hl Hmx Hne Hlt.
  assert (∀ vd, run_validation db today d ≠ inr vd) as Hrun.
  { intros vd Hr.
    destruct (run_validation_accepted db today d vd Hr)
      as (_ & _ & l' & Hl' & Hc).
    rewrite Hl in Hl'. injection Hl' as <-.
    apply first_cross_field_error_none in Hc as (_ & _ & H5 & H6 & _).
    apply stay_too_long_bound with (m := mx) in H6; try done. lia. }
  split; [done|]. intros b Hsub. unfold submit in Hsub.
  destruct (run_validation db today d) as [e|vd] eqn:Hr; [discriminate|].
  by apply (Hrun vd).
Qed.

Lemma maximum_below_minimum_is_unbookable_witness :
  listings db_after_shorten !! listing_id back_to_back = Some short_villa
  ∧ ∀ b, submit db_after_shorten may_1 8%N back_to_back ≠ inr b.
Proof.
  split; [vm_compute; reflexivity|].
  refine (proj2 (maximum_below_minimum_is_unbookable db_after_shorten may_1
                   8%N back_to_back short_villa 1 _ _ _ _)).
  - vm_compute; reflexivity.
  - reflexivity.
  - discriminate.
  - vm_compute; reflexivity.
Defined.

(** X15.  Stay bounds that the listing write serializer accepts leave a
    window: for a listing whose minimum stay is not zero and whose two
    bounds pass that check together, a request of exactly the minimum stay
    passes both stay-length tests of the booking serializer. *)
Theorem accepted_stay_bounds_leave_a_window (l : Listing.t) (d : data) :
  ListingCreateUpdateSerializer.validate (stay_bounds_of l)
    = inr (stay_bounds_of l) →
  Listing.minimum_stay l ≠ 0 →
  nights d = Listing.minimum_stay l →
  (nights d <? Listing.minimum_stay l) = false
  ∧ over_maximum_stay l (nights d) = false.
Proof.
  intros Hval Hmin Hn. split; [apply Z.ltb_ge; lia|].
  destruct (over_maximum_stay l (nights d)) eqn:Hover; [|reflexivity].
  exfalso. unfold nights in Hover. apply over_maximum_stay_true in Hover.
  unfold stay_too_long in Hover.
  destruct (listing_stay_bounds_check_iff (stay_bounds_of l)) as [_ Hrej].
  destruct (Listing.maximum_stay l) as [mx|] eqn:Hmx; [|done].
  destruct Hover as [Hmx0 Hgt].
  assert (ListingCreateUpdateSerializer.validate (stay_bounds_of l)
          = inl (ValidationError (FieldErrors [MaximumBelowMinimum]))) as Hbad.
  { apply Hrej. exists mx, (Listing.minimum_stay l). simpl. rewrite Hmx.
    repeat split; try done. lia. }
  congruence.
Qed.

Lemma accepted_stay_bounds_leave_a_window_witness :
  ListingCreateUpdateSerializer.validate (stay_bounds_of villa)
    = inr (stay_bounds_of villa)
  ∧ over_maximum_stay villa (nights (request 1 june_5 (june_5 + 2) 2))
    = false.
Proof.
  split; [vm_compute; reflexivity|].
  refine (proj2 (accepted_stay_bounds_leave_a_window villa
                   (request 1 june_5 (june_5 + 2) 2) _ _ _)).
  - vm_compute; reflexivity.
  - discriminate.
  - vm_compute; reflexivity.
Defined.

End StayWindow.

Section ListingReadWriteLaws.
Import ListingSerializer.

Lemma ListingSerializer_validate_cases (d : data) :
  let stay_ok :=
    ∀ mx, mjoin (maximum_stay d) = Some mx → mx ≠ 0 →
          default 1 (minimum_stay d) ≤ mx in
  let guests_ok :=
    default 1 (max_guests d) ≤ 4 * default 1 (bedrooms d) in
  (¬ stay_ok ∧ validate d = inl StayBoundsError)
  ∨ (stay_ok ∧ ¬ guests_ok ∧ validate d = inl TooManyGuestsError)
  ∨ (stay_ok ∧ guests_ok ∧ validate d = inr d).
Proof.
  cbv zeta. unfold validate, truthy, StayBoundsError, TooManyGuestsError.
  cbv zeta.
  destruct (mjoin (maximum_stay d)) as [mx|]; simpl.
  - destruct (Z.eqb_spec mx 0) as [->|Hmx]; simpl.
    + rewrite Z.gtb_ltb.
      destruct (Z.ltb_spec (default 1 (bedrooms d) * 4)
                           (default 1 (max_guests d))).
      * right; left. repeat split; try lia. by intros mx [= <-].
      * right; right. repeat split; try lia. by intros mx [= <-].
    + rewrite Z.gtb_ltb.
      destruct (Z.ltb_spec mx (default 1 (minimum_stay d))).
      * left. split; [|done]. intros H'. specialize (H' mx eq_refl Hmx). lia.
      * rewrite Z.gtb_ltb.
        destruct (Z.ltb_spec (default 1 (bedrooms d) * 4)
                             (default 1 (max_guests d))).
        -- right; left. repeat split; try lia. intros mx' [= <-] _. lia.
        -- right; right. repeat split; try lia. intros mx' [= <-] _. lia.
  - rewrite Z.gtb_ltb.
    destruct (Z.ltb_spec (default 1 (bedrooms d) * 4)
                         (default 1 (max_guests d))).
    + right; left. repeat split; try lia. intros mx; discriminate.
    + right; right. repeat split; try lia. intros mx; discriminate.
Qed.

Lemma listing_body_rules_helper (d : data) :
  validate d = inr d →
  (∀ mx, mjoin (maximum_stay d) = Some mx → mx ≠ 0 →
         default 1 (minimum_stay d) ≤ mx)
  ∧ default 1 (max_guests d) ≤ 4 * default 1 (bedrooms d).
Proof.
  destruct (ListingSerializer_validate_cases d)
    as [(Hs & ->) | [(Hs & Hg & ->) | (Hs & Hg & _)]]; cbv zeta in *;
    try discriminate.
  done.
Qed.

(** X16.  The read-write listing serializer accepts a body exactly when the
    minimum stay, taken as 1 when absent, does not exceed a maximum stay
    that is set and not zero, and the guest capacity, taken as 1 when
    absent, is at most four times the bedrooms, taken as 1 when absent.  The
    stay rule is tested first: a body that breaks it gets the stay error,
    whatever its capacity. *)
Theorem listing_body_rules (d : data) :
  (validate d = inr d
   ↔ (∀ mx, mjoin (maximum_stay d) = Some mx → mx ≠ 0 →
            default 1 (minimum_stay d) ≤ mx)
     ∧ default 1 (max_guests d) ≤ 4 * default 1 (bedrooms d))
  ∧ (validate d = inl StayBoundsError
     ↔ ¬ ∀ mx, mjoin (maximum_stay d) = Some mx → mx ≠ 0 →
               default 1 (minimum_stay d) ≤ mx)
  ∧ (validate d = inr d
     ∨ validate d = inl StayBoundsError
     ∨ validate d = inl TooManyGuestsError).
Proof.
  destruct (ListingSerializer_validate_cases d)
    as [(Hs & ->) | [(Hs & Hg & ->) | (Hs & Hg & ->)]]; cbv zeta in *.
  - split; [|split]; [split; [discriminate | tauto] | tauto | auto].
  - split; [|split]; [split; [discriminate | tauto] | | auto].
    split; [discriminate | tauto].
  - split; [|split]; [tauto | | auto].
    split; [discriminate | tauto].
Qed.

(** X17.  A body with zero bedrooms is never accepted by the read-write
    listing serializer when its guest capacity is absent or at least one:
    the capacity then exceeds four times the bedrooms. *)
Theorem zero_bedrooms_is_rejected (d : data) :
  bedrooms d = Some 0 →
  (∀ g, max_guests d = Some g → 1 ≤ g) →
  validate d = inl StayBoundsError ∨ validate d = inl TooManyGuestsError.
Proof.
  intros Hb Hg.
  destruct (ListingSerializer_validate_cases d)
    as [(Hs & ->) | [(Hs & Hg' & ->) | (Hs & Hg' & _)]]; cbv zeta in *;
    [by left | by right |].
  exfalso. rewrite Hb in Hg'. simpl in Hg'.
  destruct (max_guests d) as [g|]; simpl in Hg'; [|lia].
  specialize (Hg g eq_refl). lia.
Qed.

Lemma zero_bedrooms_is_rejected_witness :
  bedrooms studio = Some 0
  ∧ (validate studio = inl StayBoundsError
     ∨ validate studio = inl TooManyGuestsError).
Proof.
  split; [reflexivity|].
  apply (zero_bedrooms_is_rejected studio).
  - reflexivity.
  - intros g [= <-]. vm_compute; discriminate.
Defined.

(** X18.  The read-write serializer is the stricter of the two on stay
    bounds: whenever it accepts a body, the stay-bounds check of the write
    serializer accepts the same minimum and maximum stay. *)
Theorem read_write_check_implies_write_check (d : data) :
  validate d = inr d →
  ListingCreateUpdateSerializer.validate (stay_keys d) = inr (stay_keys d).
Proof.
  intros Hok. apply listing_body_rules_helper in Hok as [Hs _].
  destruct (listing_write_validate_outcomes (stay_keys d)) as [H|Hbad];
    [done|].
  exfalso. apply listing_stay_bounds_check_iff in Hbad
    as (mx & mn & Hmx & Hmn & Hmx0 & _ & Hlt).
  simpl in Hmx, Hmn. specialize (Hs mx). rewrite Hmx, Hmn in Hs.
  simpl in Hs. specialize (Hs eq_refl Hmx0). lia.
Qed.

Lemma read_write_check_implies_write_check_witness :
  validate family_home = inr family_home
  ∧ ListingCreateUpdateSerializer.validate (stay_keys family_home)
    = inr (stay_keys family_home).
Proof.
  split; [vm_compute; reflexivity|].
  apply (read_write_check_implies_write_check family_home).
  vm_compute; reflexivity.
Defined.

End ListingReadWriteLaws.

Section ListingSaveLaws.
Import ListingCreateUpdateSerializer.

Lemma validate_category_id_inr (cat : Catalog) (c v : Z) :
  validate_category_id cat c = inr v
  ↔ v = c ∧ ∃ x, categories cat !! c = Some x ∧ Category.is_active x = true.
Proof.
  unfold validate_category_id, Category_objects_get_active.
  destruct (categories cat !! c) as [x|]; simpl.
  - destruct (Category.is_active x) eqn:Hx; simpl.
    + split; [intros [= <-]; eauto | intros [-> _]; done].
    + split; [discriminate | intros (_ & x' & [= <-] & Hx'); congruence].
  - split; [discriminate | intros (_ & x' & Hx' & _); discriminate].
Qed.

Lemma validate_location_id_inr (cat : Catalog) (l v : Z) :
  validate_location_id cat l = inr v ↔ v = l ∧ l ∈ locations cat.
Proof.
  unfold validate_location_id, Location_objects_get.
  case_bool_decide; simpl.
  - split; [intros [= <-]; done | intros [-> _]; done].
  - split; [discriminate | tauto].
Qed.

Lemma collect_present_nil {A} (name : string) (validator : A → string + A)
    (value : option A) (errors : list (string * string)) :
  collect_present name validator value errors = []
  ↔ errors = [] ∧ ∀ v, value = Some v → ∃ v', validator v = inr v'.
Proof.
  unfold collect_present, collect. destruct value as [v|].
  - destruct (validator v) as [msg|v'] eqn:Hv.
    + split.
      * intros Happ. apply app_eq_nil in Happ as [_ ?]. discriminate.
      * intros [_ H]. destruct (H v eq_refl) as [v' ?]. congruence.
    + split; [intros ->; split; [done|]; intros ? [= <-]; eauto | tauto].
  - split; [intros ->; split; [done | discriminate] | tauto].
Qed.

Lemma to_internal_value_inr (cat : Catalog) (d d' : data) :
  to_internal_value cat d = inr d'
  ↔ d' = d
    ∧ (∀ c, category_id d = Some c →
         ∃ x, categories cat !! c = Some x ∧ Category.is_active x = true)
    ∧ (∀ l, location_id d = Some l → l ∈ locations cat)
    ∧ (∀ p, price_per_night d = Some p → 0 < p)
    ∧ (∀ g, max_guests d = Some g → 0 < g).
Proof.
  unfold to_internal_value. cbv zeta.
  match goal with
  | |- context [match ?e with [] => _ | _ :: _ => _ end] =>
      pose proof (collect_present_nil "max_guests" validate_max_guests
                    (max_guests d)
                    (collect_present "price_per_night"
                       validate_price_per_night (price_per_night d)
                       (collect_present "location_id"
                          (validate_location_id cat) (location_id d)
                          (collect_present "category_id"
                             (validate_category_id cat) (category_id d) []))))
        as Hnil;
      destruct e as [|e0 es] eqn:He
  end.
  - destruct Hnil as [Hnil _]. specialize (Hnil eq_refl).
    destruct Hnil as [Hnil H4].
    apply collect_present_nil in Hnil as [Hnil H3].
    apply collect_present_nil in Hnil as [Hnil H2].
    apply collect_present_nil in Hnil as [_ H1].
    split; [intros [= <-] | by intros (-> & _)].
    split; [done|]. repeat split.
    + intros c Hc. destruct (H1 c Hc) as [v Hv].
      by apply validate_category_id_inr in Hv as [_ ?].
    + intros l Hl. destruct (H2 l Hl) as [v Hv].
      by apply validate_location_id_inr in Hv as [_ ?].
    + intros p Hp. destruct (H3 p Hp) as [v Hv].
      unfold validate_price_per_night in Hv.
      destruct (Z.leb_spec p 0); [discriminate | lia].
    + intros g Hg. destruct (H4 g Hg) as [v Hv].
      unfold validate_max_guests in Hv.
      destruct (Z.leb_spec g 0); [discriminate | lia].
  - split; [discriminate|]. intros (_ & H1 & H2 & H3 & H4). exfalso.
    destruct Hnil as [_ Hnil].
    enough (e0 :: es = []) by discriminate. apply Hnil.
    split.
    { apply collect_present_nil. split.
      { apply collect_present_nil. split.
        { apply collect_present_nil. split; [done|].
          intros c Hc. exists c. apply validate_category_id_inr. auto. }
        intros l Hl. exists l. apply validate_location_id_inr. auto. }
      intros p Hp. exists p. unfold validate_price_per_night.
      specialize (H3 p Hp). by rewrite (proj2 (Z.leb_gt _ _)) by lia. }
    intros g Hg. exists g. unfold validate_max_guests.
    specialize (H4 g Hg). by rewrite (proj2 (Z.leb_gt _ _)) by lia.
Qed.

Lemma listing_run_validation_inr (cat : Catalog) (d vd : data) :
  run_validation cat d = inr vd
  ↔ vd = d ∧ to_internal_value cat d = inr d ∧ validate d = inr d.
Proof.
  unfold run_validation.
  destruct (to_internal_value cat d) as [errs|attrs] eqn:Hf.
  - split; [discriminate | intros (_ & ? & _); discriminate].
  - apply to_internal_value_inr in Hf as Hf'. destruct Hf' as [-> _].
    destruct (listing_write_validate_outcomes d) as [-> | ->]; simpl.
    + split; [intros [= <-]; done | intros (-> & _); done].
    + split; [discriminate | intros (_ & _ & ?); discriminate].
Qed.

(** X19.  Ids that passed their validators make [create] succeed: it links
    the new listing to that category and that location, makes the requester
    its host, and hands the other keys on unchanged. *)
Theorem validated_ids_make_create_succeed (cat : Catalog) (request_user : N)
    (validated_data : data) (c l : Z) :
  category_id validated_data = Some c →
  location_id validated_data = Some l →
  validate_category_id cat c = inr c →
  validate_location_id cat l = inr l →
  create cat request_user validated_data
  = inr {| category := c; location := l; host := request_user;
           rest := without_ids validated_data |}.
Proof.
  intros Hc Hl Hvc Hvl.
  apply validate_category_id_inr in Hvc as (_ & x & Hx & _).
  apply validate_location_id_inr in Hvl as [_ Hin].
  unfold create, Category_objects_get, Location_objects_get.
  rewrite Hc, Hl, Hx. simpl. by rewrite bool_decide_eq_true_2.
Qed.

Lemma validated_ids_make_create_succeed_witness :
  validate_category_id sample_catalog 1 = inr 1
  ∧ create sample_catalog 3%N new_listing
    = inr {| category := 1; location := 5; host := 3%N;
             rest := without_ids new_listing |}.
Proof.
  split; [vm_compute; reflexivity|].
  apply (validated_ids_make_create_succeed sample_catalog 3%N new_listing 1 5).
  - reflexivity.
  - reflexivity.
  - vm_compute; reflexivity.
  - vm_compute; reflexivity.
Defined.

Lemma listing_submit_inr (cat : Catalog) (instance : ListingRow.t) (d : data)
    (row : ListingRow.t) :
  submit cat instance d = inr row →
  to_internal_value cat d = inr d
  ∧ validate d = inr d
  ∧ update cat instance d = inr row.
Proof.
  unfold submit.
  destruct (run_validation cat d) as [e|vd] eqn:Hr; [discriminate|].
  apply listing_run_validation_inr in Hr as (-> & Hf & Hv). simpl. auto.
Qed.

Lemma update_after_fields (cat : Catalog) (instance : ListingRow.t)
    (d : data) :
  to_internal_value cat d = inr d →
  ∃ row, update cat instance d = inr row
    ∧ ListingRow.host row = ListingRow.host instance
    ∧ ListingRow.category row
      = default (ListingRow.category instance) (category_id d)
    ∧ ListingRow.location row
      = default (ListingRow.location instance) (location_id d)
    ∧ ListingRow.columns row
      = {| Listing.status :=
             default (Listing.status (ListingRow.columns instance)) (status d);
           Listing.is_available :=
             default (Listing.is_available (ListingRow.columns instance))
                     (is_available d);
           Listing.max_guests :=
             default (Listing.max_guests (ListingRow.columns instance))
                     (max_guests d);
           Listing.minimum_stay :=
             default (Listing.minimum_stay (ListingRow.columns instance))
                     (minimum_stay d);
           Listing.maximum_stay :=
             default (Listing.maximum_stay (ListingRow.columns instance))
                     (maximum_stay d);
           Listing.price_per_night :=
             default (Listing.price_per_night (ListingRow.columns instance))
                     (price_per_night d) |}.
Proof.
  intros Hf. apply to_internal_value_inr in Hf as (_ & H1 & H2 & _).
  unfold update, Category_objects_get, Location_objects_get.
  destruct (category_id d) as [c|] eqn:Hc.
  - destruct (H1 c eq_refl) as (x & -> & _). simpl.
    destruct (location_id d) as [l|] eqn:Hl; simpl.
    + rewrite bool_decide_eq_true_2 by auto. simpl. eexists. split; done.
    + eexists. split; done.
  - simpl. destruct (location_id d) as [l|] eqn:Hl; simpl.
    + rewrite bool_decide_eq_true_2 by auto. simpl. eexists. split; done.
    + eexists. split; done.
Qed.

(** X20.  Validating and saving a listing update never ends in
    [DoesNotExist]: an id that [update] looks up has passed its validator. *)
Theorem listing_update_never_raises_DoesNotExist (cat : Catalog)
    (instance : ListingRow.t) (d : data) :
  submit cat instance d ≠ inl DoesNotExist
  ∧ run_validation cat d ≠ inl DoesNotExist.
Proof.
  assert (run_validation cat d ≠ inl DoesNotExist) as Hrun.
  { unfold run_validation.
    destruct (to_internal_value cat d) as [errs|attrs]; [discriminate|].
    destruct (listing_write_validate_outcomes attrs) as [-> | ->];
      discriminate. }
  split; [|done]. unfold submit.
  destruct (run_validation cat d) as [e|vd] eqn:Hr; [simpl; congruence|].
  apply listing_run_validation_inr in Hr as (-> & Hf & _). simpl.
  destruct (update_after_fields cat instance d Hf) as (row & -> & _).
  discriminate.
Qed.

(** X21.  A listing update that is saved has passed every check on the keys
    its body holds: a new category exists and is active, a new location
    exists, a new price and a new capacity are positive.  The host never
    changes, and a key that is absent from the body leaves its column as it
    was. *)
Theorem saved_listing_update_is_sound (cat : Catalog)
    (instance : ListingRow.t) (d : data) (row : ListingRow.t) :
  submit cat instance d = inr row →
  ListingRow.host row = ListingRow.host instance
  ∧ (∀ c, category_id d = Some c →
       ListingRow.category row = c
       ∧ ∃ x, categories cat !! c = Some x ∧ Category.is_active x = true)
  ∧ (category_id d = None →
       ListingRow.category row = ListingRow.category instance)
  ∧ (∀ l, location_id d = Some l →
       ListingRow.location row = l ∧ l ∈ locations cat)
  ∧ (∀ p, price_per_night d = Some p →
       Listing.price_per_night (ListingRow.columns row) = p ∧ 0 < p)
  ∧ (price_per_night d = None →
       Listing.price_per_night (ListingRow.columns row)
       = Listing.price_per_night (ListingRow.columns instance))
  ∧ (∀ g, max_guests d = Some g →
       Listing.max_guests (ListingRow.columns row) = g ∧ 0 < g)
  ∧ (max_guests d = None →
       Listing.max_guests (ListingRow.columns row)
       = Listing.max_guests (ListingRow.columns instance))
  ∧ (location_id d = None →
       ListingRow.location row = ListingRow.location instance)
  ∧ (status d = None →
       Listing.status (ListingRow.columns row)
       = Listing.status (ListingRow.columns instance))
  ∧ (is_available d = None →
       Listing.is_available (ListingRow.columns row)
       = Listing.is_available (ListingRow.columns instance))
  ∧ (minimum_stay d = None →
       Listing.minimum_stay (ListingRow.columns row)
       = Listing.minimum_stay (ListingRow.columns instance))
  ∧ (maximum_stay d = None →
       Listing.maximum_stay (ListingRow.columns row)
       = Listing.maximum_stay (ListingRow.columns instance))
  ∧ (∀ s, status d = Some s → Listing.status (ListingRow.columns row) = s)
  ∧ (∀ a, is_available d = Some a →
       Listing.is_available (ListingRow.columns row) = a)
  ∧ (∀ mn, minimum_stay d = Some mn →
       Listing.minimum_stay (ListingRow.columns row) = mn)
  ∧ (∀ mx, maximum_stay d = Some mx →
       Listing.maximum_stay (ListingRow.columns row) = mx).
Proof.
  intros Hsub. apply listing_submit_inr in Hsub as (Hf & _ & Hup).
  destruct (update_after_fields cat instance d Hf)
    as (row' & Hup' & Hh & Hc & Hl & Hcols).
  rewrite Hup in Hup'. injection Hup' as <-.
  apply to_internal_value_inr in Hf as (_ & H1 & H2 & H3 & H4).
  rewrite Hh, Hc, Hl, Hcols. simpl.
  split; [done|].
  split; [intros c Hk; rewrite Hk; split; [done | by apply H1]|].
  split; [intros Hk; by rewrite Hk|].
  split; [intros l Hk; rewrite Hk; split; [done | by apply H2]|].
  split; [intros p Hk; rewrite Hk; split; [done | by apply H3]|].
  split; [intros Hk; by rewrite Hk|].
  split; [intros g Hk; rewrite Hk; split; [done | by apply H4]|].
  split; [intros Hk; by rewrite Hk|].
  split; [intros Hk; by rewrite Hk|].
  split; [intros Hk; by rewrite Hk|].
  split; [intros Hk; by rewrite Hk|].
  split; [intros Hk; by rewrite Hk|].
  split; [intros Hk; by rewrite Hk|].
  split; [intros s Hk; by rewrite Hk|].
  split; [intros a Hk; by rewrite Hk|].
  split; [intros mn Hk; by rewrite Hk|].
  intros mx Hk; by rewrite Hk.
Qed.

Lemma saved_listing_update_is_sound_witness :
  submit sample_catalog villa_row shorten_maximum = inr short_villa_row
  ∧ ListingRow.host short_villa_row = ListingRow.host villa_row.
Proof.
  split; [vm_compute; reflexivity|].
  refine (proj1 (saved_listing_update_is_sound sample_catalog villa_row
                   shorten_maximum short_villa_row _)).
  vm_compute; reflexivity.
Defined.

(** X22.  Once an update has taken a listing off the market, by setting
    [is_available] to false or its status to anything but published, every
    booking request for it is refused with the listing error, and none is
    turned into a booking. *)
Theorem withdrawn_listing_takes_no_bookings (cat : Catalog)
    (instance : ListingRow.t) (d : data) (row : ListingRow.t) (db : DB)
    (pk : N) (today : Z) (request_user : N)
    (req : BookingCreateSerializer.data) :
  submit cat instance d = inr row →
  is_available d = Some false
  ∨ (∃ s, status d = Some s ∧ s ≠ "published") →
  BookingCreateSerializer.listing_id req = pk →
  InvalidListing
    ∈ reported_errors
        (BookingCreateSerializer.run_validation (Listing_save pk row db)
           today req)
  ∧ ∀ b, BookingCreateSerializer.submit (Listing_save pk row db) today
           request_user req ≠ inr b.
Proof.
  intros Hsub Hoff Hpk. apply listing_submit_inr in Hsub as (Hf & _ & Hup).
  destruct (update_after_fields cat instance d Hf)
    as (row' & Hup' & _ & _ & _ & Hcols).
  rewrite Hup in Hup'. injection Hup' as <-.
  set (db' := Listing_save pk row db).
  assert (¬ bookable db' (BookingCreateSerializer.listing_id req)) as Hnb.
  { unfold bookable, db'. simpl. rewrite Hpk, lookup_insert_eq, Hcols. simpl.
    destruct Hoff as [-> | (s & -> & Hs)]; simpl; intros [? ?];
      [discriminate | done]. }
  assert (InvalidListing ∈ field_level_errors db' today req) as Hin.
  { unfold field_level_errors. rewrite elem_of_app. left.
    case_decide; [done | left]. }
  split.
  - unfold BookingCreateSerializer.run_validation.
    rewrite to_internal_value_cases.
    destruct (field_level_errors db' today req);
      [by apply elem_of_nil in Hin | exact Hin].
  - intros b Hb. apply submit_cases_create in Hb as (_ & _ & Hnil & _).
    rewrite Hnil in Hin. by apply elem_of_nil in Hin.
Qed.

Lemma withdrawn_listing_takes_no_bookings_witness :
  (∃ row, submit sample_catalog villa_row withdraw = inr row)
  ∧ ∀ b, BookingCreateSerializer.submit
           (Listing_save 1%N
              {| ListingRow.category := 1;
                 ListingRow.location := 5;
                 ListingRow.host := 3%N;
                 ListingRow.columns :=
                   {| Listing.status := "published";
                      Listing.is_available := false;
                      Listing.max_guests := 4;
                      Listing.minimum_stay := 2;
                      Listing.maximum_stay := Some 14;
                      Listing.price_per_night := 12000 |} |}
              empty_db)
           may_1 8%N back_to_back ≠ inr b.
Proof.
  split; [eexists; vm_compute; reflexivity|].
  refine (proj2 (withdrawn_listing_takes_no_bookings sample_catalog villa_row
                   withdraw _ empty_db 1%N may_1 8%N back_to_back _ _ _)).
  - vm_compute; reflexivity.
  - by left.
  - reflexivity.
Defined.

End ListingSaveLaws.

Section ReviewLaws.
Context {float : Type} (round1_div : Z → Z → float).

Lemma verified_length (reviews : list Review.t) :
  (length (ListingSerializer.verified reviews) ≤ length reviews)%nat
  ∧ (length (ListingSerializer.verified reviews) = length reviews
     ↔ Forall (λ r, Review.is_verified r = true) reviews).
Proof.
  unfold ListingSerializer.verified.
  induction reviews as [|r rs [IHle IHeq]]; simpl.
  - split; [lia|]. split; [constructor | done].
  - rewrite filter_cons. case_decide as Hr; simpl.
    + split; [lia|]. rewrite Forall_cons. split.
      * intros Hlen. split; [done|]. apply IHeq. lia.
      * intros [_ Hall]. apply IHeq in Hall. lia.
    + split; [lia|]. rewrite Forall_cons. split; [lia | tauto].
Qed.

(** X23.  Each serializer reports no average rating exactly when its own
    review count is zero, so the average is never taken over an empty set.
    The read-write serializer counts verified reviews only: its count is at
    most the count of the detail serializer, with equality exactly when
    every review is verified. *)
Theorem review_counts_and_averages (reviews : list Review.t) :
  (ListingSerializer.get_average_rating round1_div reviews = None
   ↔ ListingSerializer.get_review_count reviews = 0)
  ∧ (ListingDetailSerializer.get_average_rating round1_div reviews = None
     ↔ ListingDetailSerializer.get_review_count reviews = 0)
  ∧ 0 ≤ ListingSerializer.get_review_count reviews
      ≤ ListingDetailSerializer.get_review_count reviews
  ∧ (ListingSerializer.get_review_count reviews
     = ListingDetailSerializer.get_review_count reviews
     ↔ Forall (λ r, Review.is_verified r = true) reviews).
Proof.
  unfold ListingSerializer.get_average_rating,
    ListingSerializer.get_review_count,
    ListingDetailSerializer.get_average_rating,
    ListingDetailSerializer.get_review_count.
  destruct (verified_length reviews) as [Hle Heq].
  split; [|split; [|split]].
  - destruct (ListingSerializer.verified reviews); simpl; split;
      try done; lia.
  - destruct reviews; simpl; split; try done; lia.
  - lia.
  - rewrite <- Heq. lia.
Qed.

End ReviewLaws.

(** A listing whose reviews are all unverified shows no rating and no
    reviews in the read-write serializer, and both in the detail
    serializer. *)
Example unverified_reviews_example :
  ListingSerializer.get_review_count unverified_only = 0
  ∧ ListingSerializer.get_average_rating (λ total count, (total, count))
      unverified_only = None
  ∧ ListingDetailSerializer.get_review_count unverified_only = 2
  ∧ ListingDetailSerializer.get_average_rating (λ total count, (total, count))
      unverified_only = Some (8, 2).
Proof. repeat split. Qed.
